(** * Connecting-flight search of flights-airports-app

    A shallow embedding of [crud.get_connecting_flights] (crud.py) and of the
    [connecting_flights] handler (main.py), together with the properties of
    the search, of its in-memory pager and of the page-count formula.

    Conventions.
    - Python [int] is [Z]; Python [str] is [string]; a nullable column is an
      [option].
    - The dataset is a snapshot of the [airports] and [routes] tables, each a
      list of rows in storage order.  A query returns the selected rows in
      that order.
    - A SQL [WHERE] keeps a row only when its condition is TRUE; a test on a
      NULL column is not TRUE.  The filters below are therefore written as
      boolean "is TRUE" tests.
    - Database round trips and Python exceptions are effects: a computation
      yields the list of queries it issued and either a value or an
      exception. *)

From Stdlib Require Import ZArith List String Ascii Bool Lia.
Import ListNotations.

Local Open Scope string_scope.
Local Open Scope list_scope.
Local Open Scope Z_scope.

(** ** Data model (models.py) *)

Module Airport.
(** The columns of [airports] read by the search.  The coordinates,
    altitude and time-zone columns are never read on this path. *)
Record t : Type := make {
  id : Z;
  name : option string;
  city : option string;
  country : option string;
  iata : option string;
  icao : option string
}.
End Airport.

Module Route.
Record t : Type := make {
  id : Z;
  airline_code : option string;
  airline_id : option Z;
  source_code : option string;
  source_id : option Z;
  dest_code : option string;
  dest_id : option Z;
  codeshare : option string;
  stops : option Z;
  equipment : option string
}.
End Route.

(** A dataset snapshot: the rows of both tables, in storage order. *)
Record Db : Type := {
  airports : list Airport.t;
  routes : list Route.t
}.

(** The anonymous object built for each itinerary
    ([type('obj', (), {...})] in crud.py). *)
Record Itinerary : Type := {
  airline1 : string;
  from1 : string;
  from_city : option string;
  via : string;
  via_city : option string;
  airline2 : string;
  to : string;
  to_city : option string
}.

(** ** Python values *)

(** Truthiness of an optional string: [None] and [""] are falsy. *)
Definition truthy (x : option string) : bool :=
  match x with
  | Some s => negb (String.eqb s "")
  | None => false
  end.

(** [x or y] where both operands are optional strings. *)
Definition py_or (x y : option string) : option string :=
  if truthy x then x else y.

(** [x or d] where [d] is a string literal. *)
Definition py_or_lit (x : option string) (d : string) : string :=
  match x with
  | Some s => if String.eqb s "" then d else s
  | None => d
  end.

(** Python [==] on nullable integers ([None == None] is [True]). *)
Definition py_eqb (x y : option Z) : bool :=
  match x, y with
  | Some a, Some b => a =? b
  | None, None => true
  | _, _ => false
  end.

(** [not l] for a list. *)
Definition is_empty {A : Type} (l : list A) : bool :=
  match l with
  | [] => true
  | _ :: _ => false
  end.

(** Normalisation of one bound of a slice over a sequence of length [n]:
    a negative bound counts from the end, and the result is clamped to
    [0 .. n]. *)
Definition slice_index (n i : Z) : Z :=
  if i <? 0 then Z.max (i + n) 0 else Z.min i n.

(** [l[start:stop]]. *)
Definition py_slice {A : Type} (l : list A) (start stop : Z) : list A :=
  let n := Z.of_nat (List.length l) in
  let lo := slice_index n start in
  let hi := slice_index n stop in
  firstn (Z.to_nat (hi - lo)) (skipn (Z.to_nat lo) l).

(** [len(l)]. *)
Definition len {A : Type} (l : list A) : Z := Z.of_nat (List.length l).

(** ** Effects: issued queries and exceptions *)

Inductive Query : Type :=
| QAirportsLike (city_pattern country_pattern : string)
| QRoutesFrom (source_ids : list Z)
| QRoutesFromTo (source_ids : list (option Z)) (dest_ids : list Z)
| QAirportById (key : option Z).

Inductive exn : Type :=
| AttributeError.

Inductive outcome (A : Type) : Type :=
| Ok (a : A)
| Raise (e : exn).
Arguments Ok {A} a.
Arguments Raise {A} e.

(** A computation: the queries issued, in order, and how it ended. *)
Definition M (A : Type) : Type := (list Query * outcome A)%type.

Definition ret {A : Type} (a : A) : M A := ([], Ok a).

Definition bind {A B : Type} (m : M A) (f : A -> M B) : M B :=
  match m with
  | (q, Ok a) => let (q', r) := f a in (q ++ q', r)
  | (q, Raise e) => (q, Raise e)
  end.

Definition raise {A : Type} (e : exn) : M A := ([], Raise e).

(** One round trip: the query is recorded and its answer returned. *)
Definition issue {A : Type} (q : Query) (answer : A) : M A := ([q], Ok answer).

Declare Scope py_scope.
Delimit Scope py_scope with py.
Notation "x <- m ;; k" := (bind m (fun x => k))
  (at level 61, m at next level, right associativity) : py_scope.
Local Open Scope py_scope.

(** [for x in l: s = body x s]. *)
Fixpoint for_each {A S : Type} (l : list A) (body : A -> S -> M S) (s : S)
  : M S :=
  match l with
  | [] => ret s
  | x :: l' => s' <- body x s ;; for_each l' body s'
  end.

(** Attribute access on the result of [.first()], which is [None] when no
    row matched: [None.iata] raises [AttributeError]. *)
Definition deref {A : Type} (o : option A) : M A :=
  match o with
  | Some a => ret a
  | None => raise AttributeError
  end.

Definition queries {A : Type} (m : M A) : list Query := fst m.
Definition result {A : Type} (m : M A) : outcome A := snd m.

(** ** The store's case-insensitive LIKE

    As SQLite evaluates it on ASCII text: [%] matches any run of
    characters, [_] any one character, and letters match regardless of
    case. *)

Definition lower (c : ascii) : ascii :=
  let n := nat_of_ascii c in
  if (Nat.leb 65 n && Nat.leb n 90)%bool then ascii_of_nat (n + 32) else c.

Fixpoint like_match (p : list ascii) : list ascii -> bool :=
  match p with
  | [] => fun t => match t with [] => true | _ :: _ => false end
  | c :: p' =>
      if Ascii.eqb c "%" then
        fix any (t : list ascii) : bool :=
          (like_match p' t ||
           match t with [] => false | _ :: t' => any t' end)%bool
      else if Ascii.eqb c "_" then
        fun t => match t with [] => false | _ :: t' => like_match p' t' end
      else
        fun t =>
          match t with
          | [] => false
          | d :: t' => (Ascii.eqb (lower c) (lower d) && like_match p' t')%bool
          end
  end.

(** [column.ilike(pattern)]: not TRUE on a NULL column. *)
Definition sqlite_ilike (column : option string) (pattern : string) : bool :=
  match column with
  | Some s => like_match (list_ascii_of_string pattern) (list_ascii_of_string s)
  | None => false
  end.

(** [traverse f l] collects the values of [f] on [l], or is [None] as soon
    as one is missing. *)
Fixpoint traverse {A B : Type} (f : A -> option B) (l : list A)
  : option (list B) :=
  match l with
  | [] => Some []
  | x :: l' =>
      match f x, traverse f l' with
      | Some y, Some ys => Some (y :: ys)
      | _, _ => None
      end
  end.

(** ** Query layer (SQLAlchemy expressions used by crud.py) *)

(** [column.in_(ids)] for a list of non-null keys. *)
Definition in_ids (x : option Z) (ids : list Z) : bool :=
  match x with
  | Some v => existsb (Z.eqb v) ids
  | None => false
  end.

(** [column.in_(ids)] for a list that may hold [None]: a NULL member never
    makes the test TRUE. *)
Definition in_opt_ids (x : option Z) (ids : list (option Z)) : bool :=
  match x with
  | Some v =>
      existsb (fun y => match y with Some w => v =? w | None => false end) ids
  | None => false
  end.

(** [Route.stops == 0]. *)
Definition direct (r : Route.t) : bool :=
  match Route.stops r with
  | Some n => n =? 0
  | None => false
  end.

(** [Airport.id == key]; with [key = None] the test is [id IS NULL], which
    no row satisfies since [id] is the primary key. *)
Definition has_id (key : option Z) (a : Airport.t) : bool :=
  match key with
  | Some k => Airport.id a =? k
  | None => false
  end.

Definition option_Z_eq_dec (x y : option Z) : {x = y} + {x <> y}.
Proof. decide equality; apply Z.eq_dec. Defined.

(** [f"%{s}%"]. *)
Definition pattern (s : string) : string :=
  String.append "%" (String.append s "%").

Section Search.

(** The store's [ILIKE] operator.  The search is verified for any such
    operator; [sqlite_ilike] is the instance used in the examples. *)
Variable ilike : option string -> string -> bool.

(** Rows selected by the four queries, in storage order. *)
Definition airports_like (db : Db) (city_pat country_pat : string)
  : list Airport.t :=
  filter (fun a => ilike (Airport.city a) city_pat
                   && ilike (Airport.country a) country_pat)%bool
         (airports db).

Definition routes_from (db : Db) (source_ids : list Z) : list Route.t :=
  filter (fun r => in_ids (Route.source_id r) source_ids && direct r)%bool
         (routes db).

Definition routes_from_to (db : Db) (source_ids : list (option Z))
  (dest_ids : list Z) : list Route.t :=
  filter (fun r => in_opt_ids (Route.source_id r) source_ids
                   && in_ids (Route.dest_id r) dest_ids
                   && direct r)%bool
         (routes db).

Definition airport_by_id (db : Db) (key : option Z) : option Airport.t :=
  find (has_id key) (airports db).

(** [db.query(...).filter(...).all()] and [.first()]. *)
Definition query_airports_like (db : Db) (city_pat country_pat : string)
  : M (list Airport.t) :=
  issue (QAirportsLike city_pat country_pat)
        (airports_like db city_pat country_pat).

Definition query_routes_from (db : Db) (source_ids : list Z)
  : M (list Route.t) :=
  issue (QRoutesFrom source_ids) (routes_from db source_ids).

Definition query_routes_from_to (db : Db) (source_ids : list (option Z))
  (dest_ids : list Z) : M (list Route.t) :=
  issue (QRoutesFromTo source_ids dest_ids)
        (routes_from_to db source_ids dest_ids).

Definition query_airport_by_id (db : Db) (key : option Z)
  : M (option Airport.t) :=
  issue (QAirportById key) (airport_by_id db key).

(** ** crud.py *)

(** The dictionary literal of the itinerary object. *)
Definition make_itinerary (first second : Route.t)
  (from_airport via_airport to_airport : Airport.t) : Itinerary :=
  {| airline1 := py_or_lit (Route.airline_code first) "Unknown";
     from1 := py_or_lit (py_or (Airport.iata from_airport)
                               (Airport.icao from_airport)) "N/A";
     from_city := Airport.city from_airport;
     via := py_or_lit (py_or (Airport.iata via_airport)
                             (Airport.icao via_airport)) "N/A";
     via_city := Airport.city via_airport;
     airline2 := py_or_lit (Route.airline_code second) "Unknown";
     to := py_or_lit (py_or (Airport.iata to_airport)
                            (Airport.icao to_airport)) "N/A";
     to_city := Airport.city to_airport |}.

(** Body of the inner loop: one comparison and, on a match, three lookups
    and one append. *)
Definition join_step (db : Db) (first second : Route.t)
  (results : list Itinerary) : M (list Itinerary) :=
  if py_eqb (Route.dest_id first) (Route.source_id second) then
    from_airport <- query_airport_by_id db (Route.source_id first) ;;
    via_airport <- query_airport_by_id db (Route.dest_id first) ;;
    to_airport <- query_airport_by_id db (Route.dest_id second) ;;
    from_airport <- deref from_airport ;;
    via_airport <- deref via_airport ;;
    to_airport <- deref to_airport ;;
    ret (results ++ [make_itinerary first second
                                    from_airport via_airport to_airport])
  else ret results.

Definition get_connecting_flights (db : Db)
  (city1 country1 city2 country2 : string) (page per_page : Z)
  : M (list Itinerary * Z) :=
  let offset := (page - 1) * per_page in
  dep_airports <- query_airports_like db (pattern city1) (pattern country1) ;;
  let dep_ids := map Airport.id dep_airports in
  arr_airports <- query_airports_like db (pattern city2) (pattern country2) ;;
  let arr_ids := map Airport.id arr_airports in
  if (is_empty dep_ids || is_empty arr_ids)%bool then ret ([], 0)
  else
    first_legs <- query_routes_from db dep_ids ;;
    if is_empty first_legs then ret ([], 0)
    else
      (* list(set(...)): the order of a set is arbitrary; only membership
         in it is used *)
      let via_ids := nodup option_Z_eq_dec (map Route.dest_id first_legs) in
      second_legs <- query_routes_from_to db via_ids arr_ids ;;
      results <- for_each first_legs
                   (fun first results =>
                      for_each second_legs (join_step db first) results)
                   [] ;;
      let total := len results in
      let paginated := py_slice results offset (offset + per_page) in
      ret (paginated, total).

(** ** main.py *)

(** What the handler hands to the template engine. *)
Inductive Response : Type :=
| ResultsTable (items : list Itinerary) (total page pages : Z)
               (title type : string)
| SearchForm.

(** [GET /connecting_flights].  The search is called without [per_page],
    which takes its default 25; [//] by a positive number is [Z.div]. *)
Definition connecting_flights (db : Db)
  (city1 country1 city2 country2 : option string) (page : Z) : M Response :=
  match city1, country1, city2, country2 with
  | Some c1, Some k1, Some c2, Some k2 =>
      r <- get_connecting_flights db c1 k1 c2 k2 page 25 ;;
      let (items, total) := (r : list Itinerary * Z) in
      let pages := (total + 24) / 25 in
      ret (ResultsTable items total page pages
             (String.append "Рейсы со стыковкой: "
                (String.append c1 (String.append " → " c2)))
             "connecting")
  | _, _, _, _ => ret SearchForm
  end.

(** ** Derived notions used to state the properties *)

(** The origin and destination airport sets of a city pair. *)
Definition dep_ids_of (db : Db) (city1 country1 : string) : list Z :=
  map Airport.id (airports_like db (pattern city1) (pattern country1)).

Definition arr_ids_of (db : Db) (city2 country2 : string) : list Z :=
  map Airport.id (airports_like db (pattern city2) (pattern country2)).

(** The two fetches, in fetch order. *)
Definition first_legs_of (db : Db) (city1 country1 : string)
  : list Route.t :=
  routes_from db (dep_ids_of db city1 country1).

Definition via_ids_of (db : Db) (city1 country1 : string)
  : list (option Z) :=
  nodup option_Z_eq_dec (map Route.dest_id (first_legs_of db city1 country1)).

Definition second_legs_of (db : Db) (city1 country1 city2 country2 : string)
  : list Route.t :=
  routes_from_to db (via_ids_of db city1 country1)
                 (arr_ids_of db city2 country2).

(** The join predicate of the nested loop. *)
Definition joined (first second : Route.t) : bool :=
  py_eqb (Route.dest_id first) (Route.source_id second).

(** The pairs (first leg, second leg) that satisfy the join predicate, in
    nested-loop order: by first leg, then by second leg. *)
Definition join_pairs (db : Db) (city1 country1 city2 country2 : string)
  : list (Route.t * Route.t) :=
  flat_map
    (fun first =>
       map (pair first)
           (filter (joined first)
                   (second_legs_of db city1 country1 city2 country2)))
    (first_legs_of db city1 country1).

(** The itinerary of a pair of legs, when its three airports are found. *)
Definition itinerary_of (db : Db) (p : Route.t * Route.t)
  : option Itinerary :=
  let (first, second) := p in
  match airport_by_id db (Route.source_id first),
        airport_by_id db (Route.dest_id first),
        airport_by_id db (Route.dest_id second) with
  | Some from_airport, Some via_airport, Some to_airport =>
      Some (make_itinerary first second from_airport via_airport to_airport)
  | _, _, _ => None
  end.

(** The list [results] once both loops have run, when every lookup found
    its airport. *)
Definition materialized (db : Db) (city1 country1 city2 country2 : string)
  : option (list Itinerary) :=
  traverse (itinerary_of db) (join_pairs db city1 country1 city2 country2).

(** The pager of lines 292 and 362: the slice taken for a page. *)
Definition page_of {A : Type} (results : list A) (page per_page : Z)
  : list A :=
  let offset := (page - 1) * per_page in
  py_slice results offset (offset + per_page).

(** Every airport reference of every route resolves (the invariant the
    import establishes). *)
Definition resolves (db : Db) (key : option Z) : bool :=
  match airport_by_id db key with
  | Some _ => true
  | None => false
  end.

(** An issued lookup by primary key finds its airport. *)
Definition lookup_ok (db : Db) (q : Query) : Prop :=
  match q with
  | QAirportById key => resolves db key = true
  | _ => True
  end.

Definition routes_resolve (db : Db) : bool :=
  forallb (fun r => resolves db (Route.source_id r)
                    && resolves db (Route.dest_id r))%bool
          (routes db).

(** A two-leg connection read off the route table alone: a direct route
    out of the origin set, a direct route into the destination set, and
    the same non-null airport between them. *)
Definition connection (db : Db) (city1 country1 city2 country2 : string)
  (p : Route.t * Route.t) : bool :=
  let (first, second) := p in
  (in_ids (Route.source_id first) (dep_ids_of db city1 country1)
   && direct first
   && match Route.dest_id first, Route.source_id second with
      | Some x, Some y => x =? y
      | _, _ => false
      end
   && in_ids (Route.dest_id second) (arr_ids_of db city2 country2)
   && direct second)%bool.

Definition connections (db : Db) (city1 country1 city2 country2 : string)
  : list (Route.t * Route.t) :=
  filter (connection db city1 country1 city2 country2)
         (list_prod (routes db) (routes db)).

(** The items a call returned ([[]] when it raised). *)
Definition returned_items (m : M (list Itinerary * Z)) : list Itinerary :=
  match result m with
  | Ok (items, _) => items
  | Raise _ => []
  end.

(** ** Display fields, in the words of the specification *)

(** Read literally: a code is present when it is not null. *)
Definition display_code_as_stated (a : Airport.t) : string :=
  match Airport.iata a with
  | Some code => code
  | None =>
      match Airport.icao a with
      | Some code => code
      | None => "N/A"
      end
  end.

Definition display_airline_as_stated (r : Route.t) : string :=
  match Route.airline_code r with
  | Some code => code
  | None => "Unknown"
  end.

(** As the [or] chains have it: a code is present when it is neither null
    nor empty. *)
Definition display_code (a : Airport.t) : string :=
  match Airport.iata a with
  | Some (String c s) => String c s
  | _ =>
      match Airport.icao a with
      | Some (String c s) => String c s
      | _ => "N/A"
      end
  end.

Definition display_airline (r : Route.t) : string :=
  match Route.airline_code r with
  | Some (String c s) => String c s
  | _ => "Unknown"
  end.

(** Every returned itinerary shows its two legs and three airports
    through the given display functions. *)
Definition display_fields (code : Airport.t -> string)
  (airline : Route.t -> string) (db : Db)
  (city1 country1 city2 country2 : string) (page per_page : Z) : Prop :=
  forall items total,
    result (get_connecting_flights db city1 country1 city2 country2
                                   page per_page) = Ok (items, total) ->
    forall it, In it items ->
    exists first second from_airport via_airport to_airport,
      In (first, second) (join_pairs db city1 country1 city2 country2)
      /\ airport_by_id db (Route.source_id first) = Some from_airport
      /\ airport_by_id db (Route.dest_id first) = Some via_airport
      /\ airport_by_id db (Route.dest_id second) = Some to_airport
      /\ it = make_itinerary first second
                             from_airport via_airport to_airport
      /\ from1 it = code from_airport
      /\ via it = code via_airport
      /\ to it = code to_airport
      /\ airline1 it = airline first
      /\ airline2 it = airline second.

End Search.

(** ** A small dataset *)

Definition airport (i : Z) (city country : string) (iata icao : option string)
  : Airport.t :=
  Airport.make i (Some (String.append city " Airport")) (Some city)
               (Some country) iata icao.

Definition route (i : Z) (code : option string) (src dst stops : Z) : Route.t :=
  Route.make i code None None (Some src) None (Some dst) (Some "") (Some stops)
             (Some "320").

Definition demo : Db :=
  {| airports :=
       [ airport 1 "Berlin" "Germany" (Some "BER") (Some "EDDB");
         airport 2 "Doha" "Qatar" (Some "DOH") (Some "OTHH");
         airport 3 "Singapore" "Singapore" (Some "SIN") (Some "WSSS");
         airport 4 "Dubai" "United Arab Emirates" None (Some "OMDB") ];
     routes :=
       [ route 1 (Some "QR") 1 2 0;
         route 2 (Some "EK") 1 4 0;
         route 3 (Some "LH") 1 2 0;
         route 4 (Some "QR") 2 3 0;
         route 5 None 4 3 0;
         route 6 (Some "SQ") 1 3 0;
         route 7 (Some "TK") 2 3 1 ] |}.

(** The three itineraries from Berlin to Singapore in [demo], in the order
    the loops build them. *)
Definition via_doha (code : string) : Itinerary :=
  {| airline1 := code; from1 := "BER"; from_city := Some "Berlin";
     via := "DOH"; via_city := Some "Doha";
     airline2 := "QR"; to := "SIN"; to_city := Some "Singapore" |}.

Definition via_dubai : Itinerary :=
  {| airline1 := "EK"; from1 := "BER"; from_city := Some "Berlin";
     via := "OMDB"; via_city := Some "Dubai";
     airline2 := "Unknown"; to := "SIN"; to_city := Some "Singapore" |}.

Definition demo_results : list Itinerary :=
  [via_doha "QR"; via_dubai; via_doha "LH"].

(** A dataset whose origin airport has an empty IATA code and whose first
    leg has an empty airline code. *)
Definition blank_codes : Db :=
  {| airports :=
       [ airport 1 "Berlin" "Germany" (Some "") (Some "EDDB");
         airport 2 "Doha" "Qatar" (Some "DOH") (Some "OTHH");
         airport 3 "Singapore" "Singapore" (Some "SIN") (Some "WSSS") ];
     routes :=
       [ route 1 (Some "") 1 2 0;
         route 2 (Some "QR") 2 3 0 ] |}.

(** The one itinerary from Berlin to Singapore in [blank_codes]. *)
Definition blank_itinerary : Itinerary :=
  {| airline1 := "Unknown"; from1 := "EDDB"; from_city := Some "Berlin";
     via := "DOH"; via_city := Some "Doha";
     airline2 := "QR"; to := "SIN"; to_city := Some "Singapore" |}.

(** Ceiling of [total / per_page]. *)
Definition ceil_div (total per_page : Z) : Z :=
  (total + per_page - 1) / per_page.

(** The page numbers [1 .. n]. *)
Definition page_numbers (n : Z) : list Z :=
  map Z.of_nat (seq 1 (Z.to_nat n)).

(** * The other read paths and the route import *)

(** ** Store-level paging and DISTINCT (SQLite) *)

(** [query.offset(offset).limit(limit).all()] over the selected rows.
    SQLite reads a negative OFFSET as 0 and a negative LIMIT as no limit. *)
Definition sql_window {A : Type} (rows : list A) (offset limit : Z) : list A :=
  let rest := skipn (Z.to_nat offset) rows in
  if limit <? 0 then rest else firstn (Z.to_nat limit) rest.

Definition opt_string_eqb (x y : option string) : bool :=
  match x, y with
  | Some a, Some b => String.eqb a b
  | None, None => true
  | _, _ => false
  end.

(** [SELECT DISTINCT]: each value once, NULL included, in the order of
    first occurrence.  (The order is the store's choice; the properties
    below do not depend on it.) *)
Fixpoint distinct (values : list (option string)) : list (option string) :=
  match values with
  | [] => []
  | v :: rest =>
      v :: filter (fun w => negb (opt_string_eqb v w)) (distinct rest)
  end.

(** ** crud.py, storage-paged searches

    These functions raise nothing of their own; they are given by the pair
    they return. *)

Section Crud.

Variable ilike : option string -> string -> bool.

Definition get_airport_by_city_country (db : Db) (city country : string)
  (page per_page : Z) : list Airport.t * Z :=
  let offset := (page - 1) * per_page in
  let query := airports_like ilike db (pattern city) (pattern country) in
  let total := len query in
  let items := sql_window query offset per_page in
  (items, total).

(** [(Route.source_id.in_(ids)) | (Route.dest_id.in_(ids))]: TRUE when
    either side is TRUE. *)
Definition touches (airport_ids : list Z) (r : Route.t) : bool :=
  (in_ids (Route.source_id r) airport_ids
   || in_ids (Route.dest_id r) airport_ids)%bool.

Definition get_flights_to_from_city (db : Db) (city country : string)
  (page per_page : Z) : list Route.t * Z :=
  let offset := (page - 1) * per_page in
  let airports := airports_like ilike db (pattern city) (pattern country) in
  let airport_ids := map Airport.id airports in
  if is_empty airport_ids then ([], 0)
  else
    let query := filter (touches airport_ids) (routes db) in
    let total := len query in
    let items := sql_window query offset per_page in
    (items, total).

(** The filter of the direct search: one city to the other, either way. *)
Definition between (ids1 ids2 : list Z) (r : Route.t) : bool :=
  ((in_ids (Route.source_id r) ids1 && in_ids (Route.dest_id r) ids2)
   || (in_ids (Route.source_id r) ids2 && in_ids (Route.dest_id r) ids1))%bool.

Definition get_direct_flights_between_cities (db : Db)
  (city1 country1 city2 country2 : string) (page per_page : Z)
  : list Route.t * Z :=
  let offset := (page - 1) * per_page in
  let airports1 := airports_like ilike db (pattern city1) (pattern country1) in
  let airports2 := airports_like ilike db (pattern city2) (pattern country2) in
  let ids1 := map Airport.id airports1 in
  let ids2 := map Airport.id airports2 in
  if (is_empty ids1 || is_empty ids2)%bool then ([], 0)
  else
    let query :=
      filter (fun r => between ids1 ids2 r && direct r)%bool (routes db) in
    let total := len query in
    let items := sql_window query offset per_page in
    (items, total).

Definition get_unique_cities (db : Db) : list (option string) :=
  distinct (map Airport.city (airports db)).

Definition get_unique_countries (db : Db) : list (option string) :=
  distinct (map Airport.country (airports db)).

(** ** main.py, the other handlers *)

(** What a handler hands to the template engine: the results table with
    its context, or the search form of the given template. *)
Inductive Rendered (A : Type) : Type :=
| Results (items : list A) (total page pages : Z) (title type : string)
| Form (template : string).
Arguments Results {A} items total page pages title type.
Arguments Form {A} template.

(** [GET /city_search]: [if city and country]. *)
Definition city_search (db : Db) (city country : option string) (page : Z)
  : Rendered Airport.t :=
  match city, country with
  | Some c, Some k =>
      if (truthy city && truthy country)%bool then
        let (items, total) := get_airport_by_city_country db c k page 25 in
        let pages := (total + 24) / 25 in
        Results items total page pages
          (String.append "Аэропорты в "
             (String.append c (String.append ", " k)))
          "airport"
      else Form "city_search.html"
  | _, _ => Form "city_search.html"
  end.

(** [GET /flights_city]: [if city and country]. *)
Definition flights_city (db : Db) (city country : option string) (page : Z)
  : Rendered Route.t :=
  match city, country with
  | Some c, Some k =>
      if (truthy city && truthy country)%bool then
        let (items, total) := get_flights_to_from_city db c k page 25 in
        let pages := (total + 24) / 25 in
        Results items total page pages
          (String.append "Рейсы в/из "
             (String.append c (String.append ", " k)))
          "route"
      else Form "flights_city.html"
  | _, _ => Form "flights_city.html"
  end.

(** [GET /direct_flights]: [if all(v is not None for v in [...])]. *)
Definition direct_flights (db : Db)
  (city1 country1 city2 country2 : option string) (page : Z)
  : Rendered Route.t :=
  match city1, country1, city2, country2 with
  | Some c1, Some k1, Some c2, Some k2 =>
      let (items, total) :=
        get_direct_flights_between_cities db c1 k1 c2 k2 page 25 in
      let pages := (total + 24) / 25 in
      Results items total page pages
        (String.append "Прямые рейсы между "
           (String.append c1 (String.append " и " c2)))
        "route"
  | _, _, _, _ => Form "direct_flights.html"
  end.

End Crud.

Arguments Results {A} items total page pages title type.
Arguments Form {A} template.

(** The items and the page count a handler put in the context (nothing
    when it showed the form or raised). *)
Definition rendered_items {A : Type} (r : Rendered A) : list A :=
  match r with
  | Results items _ _ _ _ _ => items
  | Form _ => []
  end.

Definition rendered_pages {A : Type} (r : Rendered A) : Z :=
  match r with
  | Results _ _ _ pages _ _ => pages
  | Form _ => 0
  end.

Definition response_items (m : M Response) : list Itinerary :=
  match result m with
  | Ok (ResultsTable items _ _ _ _ _) => items
  | _ => []
  end.

Definition response_pages (m : M Response) : Z :=
  match result m with
  | Ok (ResultsTable _ _ _ pages _ _) => pages
  | _ => 0
  end.

(** ** main.py, autocomplete *)

(** [needle in text] for strings. *)
Fixpoint contains (needle text : string) : bool :=
  (String.prefix needle text
   || match text with
      | EmptyString => false
      | String _ rest => contains needle rest
      end)%bool.

Section Autocomplete.

(** [str.lower]. *)
Variable str_lower : string -> string.

(** [[c for c in values if q.lower() in c.lower()]]: [c.lower()] raises
    [AttributeError] on [None]. *)
Fixpoint matching (q : string) (values : list (option string))
  : outcome (list string) :=
  match values with
  | [] => Ok []
  | None :: _ => Raise AttributeError
  | Some c :: rest =>
      let keep := contains (str_lower q) (str_lower c) in
      match matching q rest with
      | Ok found => Ok (if keep then c :: found else found)
      | Raise e => Raise e
      end
  end.

Definition api_cities (db : Db) (q : string) : outcome (list string) :=
  let cities := get_unique_cities db in
  match matching q cities with
  | Ok found => Ok (py_slice found 0 10)
  | Raise e => Raise e
  end.

Definition api_countries (db : Db) (q : string) : outcome (list string) :=
  let countries := get_unique_countries db in
  match matching q countries with
  | Ok found => Ok (py_slice found 0 10)
  | Raise e => Raise e
  end.

End Autocomplete.

(** ASCII lower-casing, the instance of [str.lower] used in the examples. *)
Definition ascii_lower (s : string) : string :=
  string_of_list_ascii (map lower (list_ascii_of_string s)).

(** ** data_loader.py, [load_routes] *)

Module Airline.
Record t : Type := make {
  id : Z;
  name : option string;
  alias : option string;
  iata : option string;
  icao : option string;
  callsign : option string;
  country : option string;
  active : option string
}.
End Airline.

(** How a load ends: the table after [session.commit()], or the
    [ValueError] of [int(...)], which leaves nothing committed. *)
Inductive loading (A : Type) : Type :=
| Committed (a : A)
| ValueError.
Arguments Committed {A} a.
Arguments ValueError {A}.

(** [column == code]: not TRUE on a NULL column. *)
Definition code_is (column : option string) (code : string) : bool :=
  match column with
  | Some s => String.eqb s code
  | None => false
  end.

(** [session.query(Airport).filter(or_(Airport.iata == code,
    Airport.icao == code)).first()]. *)
Definition airport_by_code (airports : list Airport.t) (code : string)
  : option Airport.t :=
  find (fun a => code_is (Airport.iata a) code
                 || code_is (Airport.icao a) code)%bool
       airports.

Definition airline_by_code (airlines : list Airline.t) (code : string)
  : option Airline.t :=
  find (fun a => code_is (Airline.iata a) code
                 || code_is (Airline.icao a) code)%bool
       airlines.

(** The key the store gives the next inserted row: one more than the
    largest key in the table. *)
Definition next_route_id (table : list Route.t) : Z :=
  1 + fold_right (fun r m => Z.max (Route.id r) m) 0 table.

(** A row that adds a route: at least nine fields, and both airport codes
    found in the airports table. *)
Definition row_resolves (airports : list Airport.t) (row : list string)
  : bool :=
  match row with
  | _ :: _ :: r2 :: _ :: r4 :: _ :: _ :: _ :: _ :: _ =>
      match airport_by_code airports r2, airport_by_code airports r4 with
      | Some _, Some _ => true
      | _, _ => false
      end
  | _ => false
  end.

(** [row[i]] for an index the length test has made valid. *)
Definition field (row : list string) (i : nat) : string := nth i row "".

Section Loader.

(** [str.isdigit] and [int] ([None] when [int] raises [ValueError]). *)
Variable isdigit : string -> bool.
Variable int : string -> option Z.

(** One row of routes.dat: the route to add, if any.  A row of fewer than
    nine fields is skipped, which makes every index below valid. *)
Definition route_of_row (airports : list Airport.t)
  (airlines : list Airline.t) (key : Z) (row : list string)
  : loading (option Route.t) :=
  match row with
  | r0 :: _ :: r2 :: _ :: r4 :: _ :: r6 :: r7 :: r8 :: _ =>
      let source := airport_by_code airports r2 in
      let dest := airport_by_code airports r4 in
      let airline := airline_by_code airlines r0 in
      match source, dest with
      | Some source, Some dest =>
          match (if isdigit r7 then int r7 else Some 0) with
          | Some stops =>
              Committed
                (Some
                   (Route.make key
                      (Some r0)
                      (match airline with
                       | Some a => Some (Airline.id a)
                       | None => None
                       end)
                      (Some r2)
                      (Some (Airport.id source))
                      (Some r4)
                      (Some (Airport.id dest))
                      (Some r6)
                      (Some stops)
                      (Some r8)))
          | None => ValueError
          end
      | _, _ => Committed None
      end
  | _ => Committed None
  end.

(** The loop over the rows: the routes added to the session, in order. *)
Fixpoint routes_of_rows (airports : list Airport.t)
  (airlines : list Airline.t) (key : Z) (rows : list (list string))
  : loading (list Route.t) :=
  match rows with
  | [] => Committed []
  | row :: rest =>
      match route_of_row airports airlines key row with
      | Committed None => routes_of_rows airports airlines key rest
      | Committed (Some r) =>
          match routes_of_rows airports airlines (key + 1) rest with
          | Committed added => Committed (r :: added)
          | ValueError => ValueError
          end
      | ValueError => ValueError
      end
  end.

(** [load_routes(session)] on the rows read from routes.dat: the routes
    table after the commit. *)
Definition load_routes (airports : list Airport.t)
  (airlines : list Airline.t) (table : list Route.t)
  (rows : list (list string)) : loading (list Route.t) :=
  match routes_of_rows airports airlines (next_route_id table) rows with
  | Committed added => Committed (table ++ added)
  | ValueError => ValueError
  end.

(** What one row contributes, read off its fields. *)
Definition row_adds (airports : list Airport.t) (airlines : list Airline.t)
  (row : list string) (r : Route.t) : Prop :=
  exists source dest stops,
    airport_by_code airports (field row 2) = Some source
    /\ airport_by_code airports (field row 4) = Some dest
    /\ (if isdigit (field row 7) then int (field row 7) else Some 0)
       = Some stops
    /\ Route.airline_code r = Some (field row 0)
    /\ Route.airline_id r =
       match airline_by_code airlines (field row 0) with
       | Some a => Some (Airline.id a)
       | None => None
       end
    /\ Route.source_code r = Some (field row 2)
    /\ Route.source_id r = Some (Airport.id source)
    /\ Route.dest_code r = Some (field row 4)
    /\ Route.dest_id r = Some (Airport.id dest)
    /\ Route.codeshare r = Some (field row 6)
    /\ Route.stops r = Some stops
    /\ Route.equipment r = Some (field row 8).

End Loader.

(** [str.isdigit] and [int] on ASCII text, the instances used in the
    examples. *)
Definition is_digit (c : ascii) : bool :=
  let n := nat_of_ascii c in (Nat.leb 48 n && Nat.leb n 57)%bool.

Definition ascii_isdigit (s : string) : bool :=
  match s with
  | EmptyString => false
  | String _ _ => forallb is_digit (list_ascii_of_string s)
  end.

Definition ascii_int (s : string) : option Z :=
  if ascii_isdigit s then
    Some (fold_left (fun acc c => 10 * acc + Z.of_nat (nat_of_ascii c - 48))
                    (list_ascii_of_string s) 0)
  else None.

(** ** Small inputs for the import and the autocomplete *)

Definition demo_airlines : list Airline.t :=
  [ Airline.make 1 (Some "Qatar Airways") None (Some "QR") (Some "QTR")
                 (Some "QATARI") (Some "Qatar") (Some "Y");
    Airline.make 2 (Some "Emirates") None (Some "EK") (Some "UAE")
                 (Some "EMIRATES") (Some "United Arab Emirates") (Some "Y") ].

(** Four rows of routes.dat: one found by IATA codes, one found by ICAO
    code with an unknown airline and a blank stops field, one with an
    unknown destination, one cut short. *)
Definition demo_rows : list (list string) :=
  [ ["QR"; "1"; "BER"; "1"; "DOH"; "2"; ""; "0"; "320"];
    ["XX"; "\N"; "OMDB"; "4"; "SIN"; "3"; "Y"; ""; "77W"];
    ["QR"; "1"; "BER"; "1"; "ZZZ"; "9"; ""; "0"; "320"];
    ["QR"; "1"; "BER"] ].

Definition demo_loaded : list Route.t :=
  [ Route.make 1 (Some "QR") (Some 1) (Some "BER") (Some 1)
               (Some "DOH") (Some 2) (Some "") (Some 0) (Some "320");
    Route.make 2 (Some "XX") None (Some "OMDB") (Some 4)
               (Some "SIN") (Some 3) (Some "Y") (Some 0) (Some "77W") ].

(** A row whose stops field is a digit for [isdigit] but no number for
    [int], as a superscript two is in Python. *)
Definition odd_digit_rows : list (list string) :=
  [ ["QR"; "1"; "BER"; "1"; "DOH"; "2"; ""; "²"; "320"] ].

Definition lenient_isdigit (s : string) : bool :=
  (ascii_isdigit s || String.eqb s "²")%bool.

(** An airports table with a NULL city. *)
Definition unnamed_city : Db :=
  {| airports :=
       [ airport 1 "Berlin" "Germany" (Some "BER") (Some "EDDB");
         Airport.make 2 (Some "Airstrip") None (Some "Qatar") None None ];
     routes := [] |}.

(** A first leg into an airport key that is not in the table. *)
Definition dangling : Db :=
  {| airports :=
       [ airport 1 "Berlin" "Germany" (Some "BER") None;
         airport 3 "Singapore" "Singapore" (Some "SIN") None ];
     routes :=
       [ route 1 (Some "QR") 1 2 0;
         route 2 (Some "QR") 2 3 0 ] |}.

(** * Properties *)

(** ** The effect monad *)

Lemma result_bind {A B : Type} (m : M A) (f : A -> M B) :
  result (bind m f) =
  match result m with
  | Ok a => result (f a)
  | Raise e => Raise e
  end.
Proof.
  destruct m as [q [a | e]]; simpl; [destruct (f a) | ]; reflexivity.
Qed.

Lemma queries_bind {A B : Type} (m : M A) (f : A -> M B) :
  queries (bind m f) =
  queries m ++ match result m with
               | Ok a => queries (f a)
               | Raise _ => []
               end.
Proof.
  destruct m as [q [a | e]]; simpl.
  - destruct (f a); reflexivity.
  - now rewrite app_nil_r.
Qed.

Lemma traverse_app {A B : Type} (f : A -> option B) (l1 l2 : list A) :
  traverse f (l1 ++ l2) =
  match traverse f l1, traverse f l2 with
  | Some ys1, Some ys2 => Some (ys1 ++ ys2)
  | _, _ => None
  end.
Proof.
  induction l1 as [| x l1 IH]; simpl.
  - now destruct (traverse f l2).
  - rewrite IH. destruct (f x); [| reflexivity].
    destruct (traverse f l1); [| reflexivity].
    now destruct (traverse f l2).
Qed.

Lemma traverse_map_Some {A B : Type} (f : A -> option B) (l : list A)
  (ys : list B) :
  traverse f l = Some ys <-> map f l = map Some ys.
Proof.
  revert ys. induction l as [| x l IH]; intros ys; simpl.
  - split.
    + now intros [= <-].
    + destruct ys; [reflexivity | discriminate].
  - split.
    + destruct (f x) as [y |]; [| discriminate].
      destruct (traverse f l) as [ys' |] eqn:E; [| discriminate].
      intros [= <-]. simpl. f_equal. now apply IH.
    + destruct ys as [| y ys]; [discriminate |].
      simpl. intros [= -> H]. apply IH in H. now rewrite H.
Qed.

Lemma traverse_total {A B : Type} (f : A -> option B) (l : list A) :
  (forall x, In x l -> f x <> None) -> exists ys, traverse f l = Some ys.
Proof.
  induction l as [| x l IH]; intros H; simpl.
  - now exists [].
  - destruct (f x) as [y |] eqn:E.
    + destruct IH as [ys ->]; [intros; apply H; now right |].
      now exists (y :: ys).
    + exfalso. apply (H x); [now left | exact E].
Qed.

Lemma traverse_In {A B : Type} (f : A -> option B) (l : list A) (ys : list B)
  (y : B) :
  traverse f l = Some ys -> In y ys -> exists x, In x l /\ f x = Some y.
Proof.
  revert ys. induction l as [| x l IH]; intros ys; simpl.
  - intros [= <-] [].
  - destruct (f x) as [y' |] eqn:E; [| discriminate].
    destruct (traverse f l) as [ys' |]; [| discriminate].
    intros [= <-] [-> | Hin].
    + exists x. auto.
    + destruct (IH ys' eq_refl Hin) as (x' & Hx' & Hf). exists x'. auto.
Qed.

Lemma traverse_length {A B : Type} (f : A -> option B) (l : list A)
  (ys : list B) :
  traverse f l = Some ys -> List.length ys = List.length l.
Proof.
  intros H. apply traverse_map_Some in H.
  apply (f_equal (@List.length _)) in H. now rewrite !length_map in H.
Qed.

(** ** The nested loop *)

Section Loop.

Variable db : Db.

Lemma result_join_step (first second : Route.t) (acc : list Itinerary) :
  result (join_step db first second acc) =
  if joined first second then
    match itinerary_of db (first, second) with
    | Some it => Ok (acc ++ [it])
    | None => Raise AttributeError
    end
  else Ok acc.
Proof.
  unfold join_step, joined, itinerary_of, query_airport_by_id, issue.
  destruct (py_eqb _ _); [| reflexivity].
  destruct (airport_by_id db (Route.source_id first));
    destruct (airport_by_id db (Route.dest_id first));
    destruct (airport_by_id db (Route.dest_id second)); reflexivity.
Qed.

Lemma result_inner_loop (first : Route.t) (second_legs : list Route.t) :
  forall acc,
    result (for_each second_legs (join_step db first) acc) =
    match traverse (itinerary_of db)
                   (map (pair first) (filter (joined first) second_legs)) with
    | Some its => Ok (acc ++ its)
    | None => Raise AttributeError
    end.
Proof.
  induction second_legs as [| second l IH]; intros acc; simpl.
  - now rewrite app_nil_r.
  - rewrite result_bind, result_join_step.
    destruct (joined first second) eqn:J.
    + cbn [map traverse].
      destruct (itinerary_of db (first, second)) as [it |]; [| reflexivity].
      rewrite IH.
      destruct (traverse _ _) as [its |]; [| reflexivity].
      now rewrite <- app_assoc.
    + apply IH.
Qed.

Lemma result_outer_loop (second_legs first_legs : list Route.t) :
  forall acc,
    result (for_each first_legs
              (fun first results =>
                 for_each second_legs (join_step db first) results) acc) =
    match traverse (itinerary_of db)
                   (flat_map
                      (fun first =>
                         map (pair first)
                             (filter (joined first) second_legs))
                      first_legs) with
    | Some its => Ok (acc ++ its)
    | None => Raise AttributeError
    end.
Proof.
  induction first_legs as [| first l IH]; intros acc; simpl.
  - now rewrite app_nil_r.
  - rewrite result_bind, result_inner_loop, traverse_app.
    destruct (traverse _ (map _ _)) as [its1 |]; [| reflexivity].
    rewrite IH.
    destruct (traverse _ (flat_map _ _)) as [its2 |]; [| reflexivity].
    now rewrite app_assoc.
Qed.

(** A property of every issued query carries over a loop. *)
Lemma queries_for_each {A S : Type} (P : Query -> Prop) (l : list A)
  (body : A -> S -> M S) :
  (forall x s, In x l -> Forall P (queries (body x s))) ->
  forall s, Forall P (queries (for_each l body s)).
Proof.
  induction l as [| x l IH]; intros H s; simpl.
  - constructor.
  - rewrite queries_bind. apply Forall_app. split.
    + apply H. now left.
    + destruct (result (body x s)); [| constructor].
      apply IH. intros; apply H. now right.
Qed.

(** The lookups of one iteration are on the airports of its two legs. *)
Lemma queries_join_step (first second : Route.t) (acc : list Itinerary) :
  resolves db (Route.source_id first) = true ->
  resolves db (Route.dest_id first) = true ->
  resolves db (Route.dest_id second) = true ->
  Forall (lookup_ok db) (queries (join_step db first second acc)).
Proof.
  intros H1 H2 H3. unfold join_step, query_airport_by_id, issue.
  destruct (py_eqb _ _); [| constructor].
  destruct (airport_by_id db (Route.source_id first)) eqn:E1;
    [| unfold resolves in H1; rewrite E1 in H1; discriminate].
  destruct (airport_by_id db (Route.dest_id first)) eqn:E2;
    [| unfold resolves in H2; rewrite E2 in H2; discriminate].
  destruct (airport_by_id db (Route.dest_id second)) eqn:E3;
    [| unfold resolves in H3; rewrite E3 in H3; discriminate].
  simpl. repeat constructor; assumption.
Qed.

End Loop.

(** ** The search as a function of the dataset *)

Lemma result_bind_issue {A B : Type} (q : Query) (a : A) (f : A -> M B) :
  result (bind (issue q a) f) = result (f a).
Proof. now rewrite result_bind. Qed.

Lemma queries_bind_issue {A B : Type} (q : Query) (a : A) (f : A -> M B) :
  queries (bind (issue q a) f) = q :: queries (f a).
Proof. now rewrite queries_bind. Qed.

Lemma is_empty_true {A : Type} (l : list A) : is_empty l = true <-> l = [].
Proof. destruct l; simpl; split; congruence. Qed.

Lemma is_empty_false {A : Type} (l : list A) : is_empty l = false <-> l <> [].
Proof. destruct l; simpl; split; congruence. Qed.

Lemma flat_map_none {A B : Type} (l : list A) :
  flat_map (fun _ : A => @nil B) l = [].
Proof. induction l; simpl; auto. Qed.

Lemma filter_none {A : Type} (f : A -> bool) (l : list A) :
  (forall x, f x = false) -> filter f l = [].
Proof.
  intros H. induction l as [| x l IH]; simpl; [reflexivity |].
  now rewrite H.
Qed.

Lemma page_of_nil {A : Type} (page per_page : Z) :
  page_of (@nil A) page per_page = [].
Proof.
  unfold page_of, py_slice. now rewrite skipn_nil, firstn_nil.
Qed.

Section Characterisation.

Variable ilike : option string -> string -> bool.
Variable db : Db.
Variables city1 country1 city2 country2 : string.

Local Abbreviation dep_ids := (dep_ids_of ilike db city1 country1).
Local Abbreviation arr_ids := (arr_ids_of ilike db city2 country2).
Local Abbreviation first_legs := (first_legs_of ilike db city1 country1).
Local Abbreviation second_legs :=
  (second_legs_of ilike db city1 country1 city2 country2).
Local Abbreviation pairs := (join_pairs ilike db city1 country1 city2 country2).

Lemma routes_from_nil : routes_from db [] = [].
Proof.
  apply filter_none. intros r. unfold in_ids.
  now destruct (Route.source_id r).
Qed.

Lemma routes_from_to_nil (source_ids : list (option Z)) :
  routes_from_to db source_ids [] = [].
Proof.
  apply filter_none. intros r. unfold in_ids.
  destruct (Route.dest_id r); simpl;
    now rewrite ?andb_false_r.
Qed.

Lemma join_pairs_no_origin : dep_ids = [] -> pairs = [].
Proof.
  intros H. unfold join_pairs, first_legs_of. rewrite H, routes_from_nil.
  reflexivity.
Qed.

Lemma join_pairs_no_destination : arr_ids = [] -> pairs = [].
Proof.
  intros H. unfold join_pairs, second_legs_of.
  rewrite H, routes_from_to_nil. simpl. apply flat_map_none.
Qed.

Lemma join_pairs_no_first_leg : first_legs = [] -> pairs = [].
Proof.
  intros H. unfold join_pairs. now rewrite H.
Qed.

(** The outcome of the search: the itineraries of the joined pairs, in
    nested-loop order, cut to the page, with their number; or an
    exception when an airport of a joined pair is not found. *)
Lemma result_get_connecting_flights (page per_page : Z) :
  result (get_connecting_flights ilike db city1 country1 city2 country2
                                 page per_page) =
  match materialized ilike db city1 country1 city2 country2 with
  | Some its => Ok (page_of its page per_page, len its)
  | None => Raise AttributeError
  end.
Proof.
  unfold materialized, get_connecting_flights, query_airports_like,
    query_routes_from, query_routes_from_to.
  rewrite !result_bind_issue.
  fold dep_ids. fold arr_ids.
  destruct (is_empty dep_ids) eqn:Ed.
  { apply is_empty_true in Ed. rewrite (join_pairs_no_origin Ed).
    simpl. now rewrite page_of_nil. }
  destruct (is_empty arr_ids) eqn:Ea.
  { apply is_empty_true in Ea. rewrite (join_pairs_no_destination Ea).
    simpl. now rewrite page_of_nil. }
  cbn [orb].
  rewrite result_bind_issue.
  fold first_legs.
  destruct (is_empty first_legs) eqn:Ef.
  { apply is_empty_true in Ef. rewrite (join_pairs_no_first_leg Ef).
    simpl. now rewrite page_of_nil. }
  rewrite result_bind_issue, result_bind, result_outer_loop.
  fold (via_ids_of ilike db city1 country1). fold second_legs. fold pairs.
  destruct (traverse (itinerary_of db) pairs) as [its |]; reflexivity.
Qed.

End Characterisation.

(** ** The filters *)

Lemma in_ids_spec (x : option Z) (ids : list Z) :
  in_ids x ids = true <-> exists v, x = Some v /\ In v ids.
Proof.
  unfold in_ids. destruct x as [v |].
  - rewrite existsb_exists. split.
    + intros (w & Hw & E). apply Z.eqb_eq in E. subst w. eauto.
    + intros (w & [= <-] & Hw). exists v. split; [assumption |].
      apply Z.eqb_refl.
  - split; [discriminate | intros (v & [=] & _)].
Qed.

Lemma in_opt_ids_Some (v : Z) (ids : list (option Z)) :
  in_opt_ids (Some v) ids = true <-> In (Some v) ids.
Proof.
  simpl. rewrite existsb_exists. split.
  - intros ([w |] & Hw & E); [| discriminate].
    apply Z.eqb_eq in E. now subst w.
  - intros H. exists (Some v). split; [assumption | apply Z.eqb_refl].
Qed.

Lemma direct_spec (r : Route.t) : direct r = true <-> Route.stops r = Some 0.
Proof.
  unfold direct. destruct (Route.stops r) as [n |].
  - rewrite Z.eqb_eq. split; congruence.
  - split; discriminate.
Qed.

Lemma py_eqb_spec (x y : option Z) : py_eqb x y = true <-> x = y.
Proof.
  destruct x as [a |], y as [b |]; simpl; try (split; congruence).
  rewrite Z.eqb_eq. split; congruence.
Qed.

Lemma filter_map_pair {A B : Type} (f : A * B -> bool) (x : A) (l : list B) :
  filter f (map (pair x) l) = map (pair x) (filter (fun y => f (x, y)) l).
Proof.
  induction l as [| y l IH]; simpl; [reflexivity |].
  destruct (f (x, y)); simpl; now rewrite IH.
Qed.

Lemma filter_list_prod {A B : Type} (f : A * B -> bool) (l : list A)
  (l' : list B) :
  filter f (list_prod l l') =
  flat_map (fun x => map (pair x) (filter (fun y => f (x, y)) l')) l.
Proof.
  induction l as [| x l IH]; simpl; [reflexivity |].
  now rewrite filter_app, filter_map_pair, IH.
Qed.

Lemma flat_map_filter {A B : Type} (p : A -> bool) (g : A -> list B)
  (l : list A) :
  flat_map g (filter p l) = flat_map (fun x => if p x then g x else []) l.
Proof.
  induction l as [| x l IH]; simpl; [reflexivity |].
  destruct (p x); simpl; now rewrite IH.
Qed.

Lemma flat_map_ext_on {A B : Type} (f g : A -> list B) (l : list A) :
  (forall x, In x l -> f x = g x) -> flat_map f l = flat_map g l.
Proof.
  induction l as [| x l IH]; intros H; simpl; [reflexivity |].
  rewrite (H x) by now left.
  rewrite IH; [reflexivity | intros; apply H; now right].
Qed.

Lemma filter_twice {A : Type} (p q : A -> bool) (l : list A) :
  filter p (filter q l) = filter (fun x => q x && p x)%bool l.
Proof.
  induction l as [| x l IH]; simpl; [reflexivity |].
  destruct (q x); simpl; [destruct (p x) |]; now rewrite IH.
Qed.

Section Join.

Variable ilike : option string -> string -> bool.
Variable db : Db.
Variables city1 country1 city2 country2 : string.

Local Abbreviation dep_ids := (dep_ids_of ilike db city1 country1).
Local Abbreviation arr_ids := (arr_ids_of ilike db city2 country2).
Local Abbreviation first_legs := (first_legs_of ilike db city1 country1).
Local Abbreviation via_ids := (via_ids_of ilike db city1 country1).
Local Abbreviation second_legs :=
  (second_legs_of ilike db city1 country1 city2 country2).
Local Abbreviation pairs :=
  (join_pairs ilike db city1 country1 city2 country2).

Lemma first_leg_spec (r : Route.t) :
  In r first_legs <->
  In r (routes db)
  /\ (exists i, Route.source_id r = Some i /\ In i dep_ids)
  /\ Route.stops r = Some 0.
Proof.
  unfold first_legs_of, routes_from.
  rewrite filter_In, andb_true_iff, in_ids_spec, direct_spec. tauto.
Qed.

Lemma second_leg_spec (r : Route.t) :
  In r second_legs <->
  In r (routes db)
  /\ (exists v, Route.source_id r = Some v /\ In (Some v) via_ids)
  /\ (exists j, Route.dest_id r = Some j /\ In j arr_ids)
  /\ Route.stops r = Some 0.
Proof.
  unfold second_legs_of, routes_from_to.
  rewrite filter_In, !andb_true_iff, in_ids_spec, direct_spec.
  assert (in_opt_ids (Route.source_id r) via_ids = true <->
          exists v, Route.source_id r = Some v /\ In (Some v) via_ids) as ->.
  { destruct (Route.source_id r) as [v |].
    - rewrite in_opt_ids_Some. split; [eauto |].
      now intros (w & [= <-] & H).
    - simpl. split; [discriminate | intros (v & [=] & _)]. }
  tauto.
Qed.

Lemma via_spec (x : option Z) :
  In x via_ids <-> exists r, In r first_legs /\ Route.dest_id r = x.
Proof.
  unfold via_ids_of. rewrite nodup_In, in_map_iff.
  split; intros (r & H1 & H2); exists r; auto.
Qed.

Lemma join_pair_spec (first second : Route.t) :
  In (first, second) pairs <->
  In first first_legs /\ In second second_legs
  /\ Route.dest_id first = Route.source_id second.
Proof.
  unfold join_pairs. rewrite in_flat_map. split.
  - intros (x & Hx & H). apply in_map_iff in H.
    destruct H as (y & [= -> ->] & Hy). apply filter_In in Hy.
    destruct Hy as [Hy J]. apply py_eqb_spec in J. auto.
  - intros (H1 & H2 & J). exists first. split; [assumption |].
    apply in_map. apply filter_In. split; [assumption |].
    now apply py_eqb_spec.
Qed.

(** The pairs joined by the nested loop are exactly the connections of
    the route table, in the same order and with the same repetitions:
    restricting second legs to the via airports loses no connection. *)
Lemma join_pairs_connections :
  pairs = connections ilike db city1 country1 city2 country2.
Proof.
  unfold connections. rewrite filter_list_prod.
  unfold join_pairs at 1. unfold first_legs_of at 1. unfold routes_from.
  rewrite flat_map_filter. apply flat_map_ext_on. intros first Hfirst.
  destruct (in_ids (Route.source_id first) dep_ids && direct first)%bool
    eqn:P.
  - f_equal. unfold second_legs_of, routes_from_to. rewrite filter_twice.
    apply filter_ext_in. intros second _.
    unfold connection. rewrite P. cbn [andb].
    unfold joined.
    destruct (Route.source_id second) as [y |] eqn:Ey;
      destruct (Route.dest_id first) as [x |] eqn:Ex; simpl;
      rewrite ?andb_false_r; try reflexivity.
    destruct (x =? y) eqn:E.
    + apply Z.eqb_eq in E. subst y.
      assert (in_opt_ids (Some x) via_ids = true) as H.
      { apply in_opt_ids_Some, via_spec. exists first.
        split; [| assumption].
        unfold first_legs_of, routes_from. apply filter_In. auto. }
      simpl in H. rewrite H. simpl.
      now rewrite andb_true_r.
    + simpl. now rewrite andb_false_r.
  - symmetry. replace (@nil (Route.t * Route.t)) with
      (map (pair first) (@nil Route.t)) by reflexivity.
    f_equal. apply filter_none. intros second.
    unfold connection. now rewrite P.
Qed.

End Join.

(** ** The pager *)

Lemma In_firstn {A : Type} (n : nat) (l : list A) (x : A) :
  In x (firstn n l) -> In x l.
Proof.
  intros H. rewrite <- (firstn_skipn n l). apply in_or_app. now left.
Qed.

Lemma In_skipn {A : Type} (n : nat) (l : list A) (x : A) :
  In x (skipn n l) -> In x l.
Proof.
  intros H. rewrite <- (firstn_skipn n l). apply in_or_app. now right.
Qed.

Lemma In_py_slice {A : Type} (l : list A) (start stop : Z) (x : A) :
  In x (py_slice l start stop) -> In x l.
Proof.
  unfold py_slice. intros H.
  apply In_firstn in H. now apply In_skipn in H.
Qed.

Lemma firstn_plus {A : Type} (a b : nat) (l : list A) :
  firstn (a + b) l = firstn a l ++ firstn b (skipn a l).
Proof.
  revert l. induction a as [| a IH]; intros l; simpl; [reflexivity |].
  destruct l as [| x l]; simpl.
  - now rewrite firstn_nil.
  - now rewrite IH.
Qed.

Lemma firstn_capped {A : Type} (a : nat) (l : list A) :
  firstn (Nat.min a (List.length l)) l = firstn a l.
Proof.
  destruct (Nat.le_ge_cases a (List.length l)) as [H | H].
  - now rewrite Nat.min_l.
  - rewrite Nat.min_r by assumption.
    now rewrite firstn_all, firstn_all2.
Qed.

(** For a page number and a page size of at least 1 the slice is the plain
    window of [per_page] elements at offset [(page - 1) * per_page]. *)
Lemma page_of_window {A : Type} (l : list A) (page per_page : Z) :
  1 <= page -> 1 <= per_page ->
  page_of l page per_page =
  firstn (Z.to_nat per_page) (skipn (Z.to_nat ((page - 1) * per_page)) l).
Proof.
  intros Hp Hs. unfold page_of, py_slice, slice_index.
  set (off := (page - 1) * per_page).
  set (n := Z.of_nat (List.length l)).
  assert (0 <= off) by (subst off; nia).
  assert (0 <= n) by (subst n; lia).
  destruct (off <? 0) eqn:E1; [apply Z.ltb_lt in E1; lia |].
  destruct (off + per_page <? 0) eqn:E2; [apply Z.ltb_lt in E2; lia |].
  destruct (Z.le_gt_cases off n) as [Hle | Hgt].
  - rewrite (Z.min_l off n) by assumption.
    rewrite <- (firstn_capped (Z.to_nat per_page)).
    f_equal. rewrite length_skipn. subst n. lia.
  - rewrite (Z.min_r off n) by lia.
    rewrite (skipn_all2 (n := Z.to_nat off)) by (subst n; lia).
    rewrite firstn_nil.
    replace (Z.min (off + per_page) n - n) with 0 by lia.
    reflexivity.
Qed.

Lemma page_of_length {A : Type} (l : list A) (page per_page : Z) :
  1 <= page -> 1 <= per_page ->
  len (page_of l page per_page) <= per_page.
Proof.
  intros Hp Hs. rewrite page_of_window by assumption.
  unfold len. rewrite length_firstn. lia.
Qed.

(** Page 0: the slice runs from a negative start to stop 0 and is empty. *)
Lemma page_of_zero {A : Type} (l : list A) (per_page : Z) :
  1 <= per_page -> page_of l 0 per_page = [].
Proof.
  intros Hs. unfold page_of, py_slice, slice_index.
  replace ((0 - 1) * per_page + per_page) with 0 by lia.
  destruct ((0 - 1) * per_page <? 0) eqn:E; [| apply Z.ltb_ge in E; lia].
  cbn [Z.ltb Z.compare].
  replace (Z.to_nat (Z.min 0 (Z.of_nat (List.length l))
                     - Z.max ((0 - 1) * per_page + Z.of_nat (List.length l)) 0))
    with 0%nat by lia.
  reflexivity.
Qed.

Lemma concat_windows {A : Type} (l : list A) (size k : nat) :
  List.concat (map (fun i => firstn size (skipn (i * size) l)) (seq 0 k)) =
  firstn (k * size) l.
Proof.
  induction k as [| k IH]; [reflexivity |].
  rewrite seq_S, map_app, concat_app, IH. simpl.
  rewrite app_nil_r, <- firstn_plus. f_equal. lia.
Qed.

Lemma ceil_div_spec (total per_page : Z) :
  1 <= per_page ->
  per_page * (ceil_div total per_page - 1) < total
  <= per_page * ceil_div total per_page.
Proof.
  intros H. unfold ceil_div.
  pose proof (Z.div_mod (total + per_page - 1) per_page ltac:(lia)) as E.
  pose proof (Z.mod_pos_bound (total + per_page - 1) per_page ltac:(lia)).
  lia.
Qed.

Lemma concat_pages {A : Type} (l : list A) (per_page : Z) :
  1 <= per_page ->
  List.concat (map (fun page => page_of l page per_page)
              (page_numbers (ceil_div (len l) per_page))) = l.
Proof.
  intros Hs. unfold page_numbers.
  set (k := Z.to_nat (ceil_div (len l) per_page)).
  rewrite <- seq_shift, !map_map.
  rewrite (map_ext_in _
             (fun i => firstn (Z.to_nat per_page)
                              (skipn (i * Z.to_nat per_page) l))).
  - rewrite concat_windows. apply firstn_all2.
    pose proof (ceil_div_spec (len l) per_page Hs). unfold len in *.
    subst k. nia.
  - intros i _. rewrite page_of_window by lia.
    do 2 f_equal. nia.
Qed.

(** ** Properties of the search *)

Section SearchProperties.

Variable ilike : option string -> string -> bool.
Variable db : Db.
Variables city1 country1 city2 country2 : string.

Local Abbreviation search :=
  (get_connecting_flights ilike db city1 country1 city2 country2).
Local Abbreviation dep_ids := (dep_ids_of ilike db city1 country1).
Local Abbreviation arr_ids := (arr_ids_of ilike db city2 country2).
Local Abbreviation first_legs := (first_legs_of ilike db city1 country1).
Local Abbreviation second_legs :=
  (second_legs_of ilike db city1 country1 city2 country2).
Local Abbreviation pairs :=
  (join_pairs ilike db city1 country1 city2 country2).
Local Abbreviation all_results :=
  (materialized ilike db city1 country1 city2 country2).

(** What a returning call returned. *)
Lemma returned (page per_page : Z) (items : list Itinerary) (total : Z) :
  result (search page per_page) = Ok (items, total) ->
  exists all,
    all_results = Some all
    /\ items = page_of all page per_page
    /\ total = len all.
Proof.
  rewrite result_get_connecting_flights.
  destruct all_results as [all |]; [| discriminate].
  intros [= <- <-]. now exists all.
Qed.

Lemma joined_pair_routes (first second : Route.t) :
  In (first, second) pairs ->
  In first (routes db) /\ In second (routes db).
Proof.
  intros H. apply join_pair_spec in H. destruct H as (H1 & H2 & _).
  apply first_leg_spec in H1. apply second_leg_spec in H2. tauto.
Qed.

Lemma resolved_route (r : Route.t) :
  routes_resolve db = true -> In r (routes db) ->
  resolves db (Route.source_id r) = true
  /\ resolves db (Route.dest_id r) = true.
Proof.
  unfold routes_resolve. rewrite forallb_forall. intros H Hr.
  apply H in Hr. now apply andb_true_iff in Hr.
Qed.

(** With every route resolved, both loops run to completion. *)
Lemma materialized_when_resolved :
  routes_resolve db = true -> exists all, all_results = Some all.
Proof.
  intros R. apply traverse_total. intros [first second] Hp.
  apply joined_pair_routes in Hp. destruct Hp as [H1 H2].
  destruct (resolved_route first R H1) as [Ha Hb].
  destruct (resolved_route second R H2) as [_ Hc].
  unfold resolves in Ha, Hb, Hc. unfold itinerary_of.
  destruct (airport_by_id db (Route.source_id first)); [| discriminate].
  destruct (airport_by_id db (Route.dest_id first)); [| discriminate].
  destruct (airport_by_id db (Route.dest_id second)); [| discriminate].
  discriminate.
Qed.

Lemma returns_when_resolved (page per_page : Z) :
  routes_resolve db = true ->
  exists all,
    all_results = Some all
    /\ result (search page per_page) =
       Ok (page_of all page per_page, len all).
Proof.
  intros R. destruct (materialized_when_resolved R) as [all E].
  exists all. split; [assumption |].
  now rewrite result_get_connecting_flights, E.
Qed.

Lemma materialized_length (all : list Itinerary) :
  all_results = Some all -> len all = len pairs.
Proof.
  intros H. unfold len. f_equal. exact (traverse_length _ _ _ H).
Qed.

(** C1. Every itinerary returned by [get_connecting_flights] is the
    itinerary of a pair of routes (first, second) of the dataset with
    [first.dest_id = second.source_id], [first.source_id] in the origin
    airport set, [second.dest_id] in the destination airport set, and
    [stops = 0] on both routes.  (When an airport set is empty nothing is
    returned; the statement needs no assumption on the sets.) *)
Theorem itineraries_join_direct_legs (page per_page : Z)
  (items : list Itinerary) (total : Z) (it : Itinerary) :
  result (search page per_page) = Ok (items, total) ->
  In it items ->
  exists first second,
    In first (routes db) /\ In second (routes db)
    /\ itinerary_of db (first, second) = Some it
    /\ Route.dest_id first = Route.source_id second
    /\ (exists i, Route.source_id first = Some i /\ In i dep_ids)
    /\ (exists j, Route.dest_id second = Some j /\ In j arr_ids)
    /\ Route.stops first = Some 0
    /\ Route.stops second = Some 0.
Proof.
  intros H Hit. destruct (returned _ _ _ _ H) as (all & E & -> & _).
  apply In_py_slice in Hit.
  destruct (traverse_In _ _ _ _ E Hit) as ([first second] & Hp & Hi).
  exists first, second.
  apply join_pair_spec in Hp. destruct Hp as (H1 & H2 & J).
  apply first_leg_spec in H1. apply second_leg_spec in H2.
  tauto.
Qed.

(** C2. The total returned by [get_connecting_flights] is the number of
    ordered pairs (first leg, second leg) with
    [first.dest_id == second.source_id], each pair counted once and none
    merged: it is the number of connections in the route table, repeated
    routes included.  It is the same for every [page] and [per_page], and
    it is returned whenever every route resolves. *)
Theorem total_counts_join_pairs (page per_page : Z) :
  (routes_resolve db = true ->
   exists items, result (search page per_page) = Ok (items, len pairs))
  /\ (forall items total,
        result (search page per_page) = Ok (items, total) ->
        total = len pairs
        /\ total = len (connections ilike db city1 country1 city2 country2)
        /\ forall page' per_page',
             exists items',
               result (search page' per_page') = Ok (items', total)).
Proof.
  split.
  - intros R. destruct (returns_when_resolved page per_page R)
      as (all & E & ->).
    rewrite (materialized_length _ E). eauto.
  - intros items total H. destruct (returned _ _ _ _ H) as (all & E & _ & ->).
    rewrite (materialized_length _ E). repeat split.
    + now rewrite join_pairs_connections.
    + intros page' per_page'. rewrite result_get_connecting_flights, E.
      rewrite (materialized_length _ E). eauto.
Qed.

(** C3. When the origin airport set is empty, or the destination airport
    set is empty, or no direct route leaves the origin set,
    [get_connecting_flights] returns the empty list and total 0, having
    issued only the two airport queries and, when both sets are
    non-empty, the first-leg query: no second-leg fetch and no airport
    lookup is made. *)
Theorem empty_sets_short_circuit (page per_page : Z) :
  dep_ids = [] \/ arr_ids = [] \/ first_legs = [] ->
  search page per_page =
  (QAirportsLike (pattern city1) (pattern country1)
     :: QAirportsLike (pattern city2) (pattern country2)
     :: (if (is_empty dep_ids || is_empty arr_ids)%bool then []
         else [QRoutesFrom dep_ids]),
   Ok ([], 0)).
Proof.
  intros H.
  unfold get_connecting_flights, query_airports_like, query_routes_from,
    issue, bind.
  fold dep_ids. fold arr_ids.
  destruct (is_empty dep_ids || is_empty arr_ids)%bool eqn:E.
  - reflexivity.
  - apply orb_false_iff in E. destruct E as [Ed Ea].
    apply is_empty_false in Ed, Ea.
    destruct H as [H | [H | H]]; [contradiction | contradiction |].
    fold first_legs. now rewrite H.
Qed.

(** C4. For [per_page >= 1] the page slices for pages
    1 .. ceil(total / per_page), concatenated in order, are the full
    result list: nothing is lost, repeated or reordered.  This holds for
    the pager on any list, and for the items [get_connecting_flights]
    returns page by page. *)
Theorem pages_concatenate_to_results (per_page : Z) :
  1 <= per_page ->
  (forall (A : Type) (results : list A),
      List.concat (map (fun page => page_of results page per_page)
                       (page_numbers (ceil_div (len results) per_page)))
      = results)
  /\ (forall all,
        all_results = Some all ->
        List.concat (map (fun page => returned_items (search page per_page))
                         (page_numbers (ceil_div (len all) per_page)))
        = all).
Proof.
  intros Hs. split.
  - intros A results. now apply concat_pages.
  - intros all E. rewrite <- (concat_pages all per_page Hs) at 2.
    f_equal. apply map_ext. intros page. unfold returned_items.
    now rewrite result_get_connecting_flights, E.
Qed.

(** C5. For [page >= 1] and [per_page >= 1] a returning call yields the
    contiguous run of the materialized list that starts at zero-based
    offset [(page - 1) * per_page] and has at most [per_page] elements,
    together with the length of the whole list; and the call returns
    whenever every route resolves. *)
Theorem page_is_window_of_results (page per_page : Z) :
  1 <= page -> 1 <= per_page ->
  (forall (A : Type) (results : list A),
      page_of results page per_page =
      firstn (Z.to_nat per_page)
             (skipn (Z.to_nat ((page - 1) * per_page)) results)
      /\ len (page_of results page per_page) <= per_page)
  /\ (forall items total,
      result (search page per_page) = Ok (items, total) ->
      exists all,
        all_results = Some all
        /\ items = firstn (Z.to_nat per_page)
                          (skipn (Z.to_nat ((page - 1) * per_page)) all)
        /\ len items <= per_page
        /\ total = len all)
  /\ (routes_resolve db = true ->
      exists items total, result (search page per_page) = Ok (items, total)).
Proof.
  intros Hp Hs. split; [| split].
  - intros A results.
    split; [now apply page_of_window | now apply page_of_length].
  - intros items total H.
    destruct (returned _ _ _ _ H) as (all & E & -> & ->).
    exists all. repeat split; try assumption.
    + now apply page_of_window.
    + now apply page_of_length.
  - intros R. destruct (returns_when_resolved page per_page R)
      as (all & _ & ->). eauto.
Qed.

Lemma display_code_or (a : Airport.t) :
  py_or_lit (py_or (Airport.iata a) (Airport.icao a)) "N/A" =
  display_code a.
Proof.
  unfold display_code, py_or, py_or_lit, truthy.
  destruct (Airport.iata a) as [[| c s] |];
    destruct (Airport.icao a) as [[| c' s'] |]; reflexivity.
Qed.

Lemma display_airline_or (r : Route.t) :
  py_or_lit (Route.airline_code r) "Unknown" = display_airline r.
Proof.
  unfold display_airline, py_or_lit.
  destruct (Route.airline_code r) as [[| c s] |]; reflexivity.
Qed.

(** C6 (amended). In every returned itinerary each of the three airport
    codes is the airport's IATA code when that is neither null nor empty,
    otherwise its ICAO code when that is neither null nor empty,
    otherwise ["N/A"]; and each of the two airline codes is the leg's
    airline code, or ["Unknown"] when that code is null or empty. *)
Theorem display_fields_fall_back (page per_page : Z) :
  display_fields ilike display_code display_airline
                 db city1 country1 city2 country2 page per_page.
Proof.
  intros items total H it Hit.
  destruct (returned _ _ _ _ H) as (all & E & -> & _).
  apply In_py_slice in Hit.
  destruct (traverse_In _ _ _ _ E Hit) as ([first second] & Hp & Hi).
  unfold itinerary_of in Hi.
  destruct (airport_by_id db (Route.source_id first)) as [a |] eqn:Ea;
    [| discriminate].
  destruct (airport_by_id db (Route.dest_id first)) as [b |] eqn:Eb;
    [| discriminate].
  destruct (airport_by_id db (Route.dest_id second)) as [c |] eqn:Ec;
    [| discriminate].
  injection Hi as <-.
  exists first, second, a, b, c. simpl.
  rewrite !display_code_or, !display_airline_or.
  repeat split; auto.
Qed.

Lemma queries_search_resolved (page per_page : Z) :
  routes_resolve db = true ->
  Forall (lookup_ok db) (queries (search page per_page)).
Proof.
  intros R.
  unfold get_connecting_flights, query_airports_like, query_routes_from,
    query_routes_from_to.
  rewrite !queries_bind_issue. do 2 (constructor; [exact I |]).
  fold dep_ids. fold arr_ids.
  destruct (is_empty dep_ids || is_empty arr_ids)%bool; [constructor |].
  rewrite queries_bind_issue. constructor; [exact I |].
  fold first_legs.
  destruct (is_empty first_legs); [constructor |].
  rewrite queries_bind_issue. constructor; [exact I |].
  fold (via_ids_of ilike db city1 country1). fold second_legs.
  rewrite queries_bind. apply Forall_app. split.
  - apply queries_for_each. intros first acc Hf.
    apply queries_for_each. intros second acc' Hs.
    apply first_leg_spec in Hf. apply second_leg_spec in Hs.
    destruct Hf as [Hf _]. destruct Hs as [Hs _].
    destruct (resolved_route first R Hf).
    destruct (resolved_route second R Hs).
    now apply queries_join_step.
  - destruct (result _); constructor.
Qed.

(** C7. When every route's [source_id] and [dest_id] resolve to an
    airport of the dataset, [get_connecting_flights] raises on no input:
    it returns a list and a total, and every airport lookup it issued
    found its airport. *)
Theorem no_raise_when_routes_resolve (page per_page : Z) :
  routes_resolve db = true ->
  (exists items total, result (search page per_page) = Ok (items, total))
  /\ Forall (lookup_ok db) (queries (search page per_page)).
Proof.
  intros R. split.
  - destruct (returns_when_resolved page per_page R) as (all & _ & ->).
    eauto.
  - now apply queries_search_resolved.
Qed.

(** C8. Whatever [per_page] a search was run with, for the total it
    returned the [connecting_flights] handler computes
    [pages = (total + 24) // 25], the ceiling of [total / 25]. *)
Theorem handler_page_count (page page' per_page' : Z)
  (items' : list Itinerary) (total : Z) :
  result (search page' per_page') = Ok (items', total) ->
  (exists items title,
      result (connecting_flights ilike db (Some city1) (Some country1)
                                 (Some city2) (Some country2) page) =
      Ok (ResultsTable items total page ((total + 24) / 25)
                       title "connecting"))
  /\ 25 * ((total + 24) / 25 - 1) < total <= 25 * ((total + 24) / 25).
Proof.
  intros H. destruct (returned _ _ _ _ H) as (all & E & _ & ->). split.
  - unfold connecting_flights.
    rewrite result_bind, result_get_connecting_flights, E. simpl. eauto.
  - pose proof (ceil_div_spec (len all) 25 ltac:(lia)) as C.
    unfold ceil_div in C.
    replace (len all + 25 - 1) with (len all + 24) in C by lia.
    exact C.
Qed.

(** C9. With [page = 0] and [per_page >= 1] a returning call yields no
    itinerary, while its total is still the number of join pairs: the
    slice from [-per_page] to [0] is empty and never wraps around.  The
    call returns whenever every route resolves. *)
Theorem page_zero_is_empty (per_page : Z) :
  1 <= per_page ->
  (forall items total,
      result (search 0 per_page) = Ok (items, total) ->
      items = [] /\ total = len pairs)
  /\ (routes_resolve db = true ->
      result (search 0 per_page) = Ok ([], len pairs)).
Proof.
  intros Hs. split.
  - intros items total H.
    destruct (returned _ _ _ _ H) as (all & E & -> & ->).
    split; [now apply page_of_zero | now apply materialized_length].
  - intros R. destruct (returns_when_resolved 0 per_page R)
      as (all & E & ->).
    now rewrite page_of_zero, (materialized_length _ E).
Qed.

(** C10. The materialized list follows the nested loops: the itineraries
    of the first first-leg fetched come first, then those of the second,
    and so on, and within one first leg they follow the order in which
    the second legs were fetched.  The items of a page are the slice of
    that list, so they are determined by the two fetch orders. *)
Theorem results_in_nested_loop_order (page per_page : Z)
  (items : list Itinerary) (total : Z) :
  result (search page per_page) = Ok (items, total) ->
  exists all,
    map Some all =
    map (itinerary_of db)
        (flat_map
           (fun first =>
              map (pair first)
                  (filter
                     (fun second =>
                        py_eqb (Route.dest_id first)
                               (Route.source_id second))
                     second_legs))
           first_legs)
    /\ items = page_of all page per_page
    /\ total = len all.
Proof.
  intros H. destruct (returned _ _ _ _ H) as (all & E & -> & ->).
  exists all. repeat split.
  symmetry. now apply traverse_map_Some.
Qed.

End SearchProperties.

(** ** The search on the small datasets *)

Example like_ignores_case :
  sqlite_ilike (Some "West Berlin") "%berlin%" = true.
Proof. reflexivity. Qed.

Example like_needs_the_substring :
  sqlite_ilike (Some "Bern") "%berlin%" = false.
Proof. reflexivity. Qed.

Example like_empty_input_matches_all :
  sqlite_ilike (Some "Bern") (pattern "") = true.
Proof. reflexivity. Qed.

Example slice_negative_start : py_slice [1; 2; 3; 4; 5] (-2) 5 = [4; 5].
Proof. reflexivity. Qed.

Example slice_negative_start_stop_zero : py_slice [1; 2; 3; 4; 5] (-2) 0 = [].
Proof. reflexivity. Qed.

Local Abbreviation berlin_singapore :=
  (get_connecting_flights sqlite_ilike demo
     "Berlin" "Germany" "Singapore" "Singapore").

Example demo_search : result (berlin_singapore 1 25) = Ok (demo_results, 3).
Proof. reflexivity. Qed.

Example demo_second_page :
  result (berlin_singapore 2 2) = Ok ([via_doha "LH"], 3).
Proof. reflexivity. Qed.

Example blank_codes_search :
  result (get_connecting_flights sqlite_ilike blank_codes
            "Berlin" "Germany" "Singapore" "Singapore" 1 25)
  = Ok ([blank_itinerary], 1).
Proof. reflexivity. Qed.

(** A route into an airport that is not in the table makes the via lookup
    fail. *)
Example dangling_via_raises :
  result (get_connecting_flights sqlite_ilike
            {| airports :=
                 [ airport 1 "Berlin" "Germany" (Some "BER") None;
                   airport 3 "Singapore" "Singapore" (Some "SIN") None ];
               routes :=
                 [ route 1 (Some "QR") 1 2 0;
                   route 2 (Some "QR") 2 3 0 ] |}
            "Berlin" "Germany" "Singapore" "Singapore" 1 25)
  = Raise AttributeError.
Proof. reflexivity. Qed.

Lemma itineraries_join_direct_legs_witness :
  result (berlin_singapore 1 25) = Ok (demo_results, 3)
  /\ In via_dubai demo_results
  /\ exists first second,
       In first (routes demo) /\ In second (routes demo)
       /\ itinerary_of demo (first, second) = Some via_dubai
       /\ Route.dest_id first = Route.source_id second
       /\ (exists i, Route.source_id first = Some i
                     /\ In i (dep_ids_of sqlite_ilike demo "Berlin" "Germany"))
       /\ (exists j, Route.dest_id second = Some j
                     /\ In j (arr_ids_of sqlite_ilike demo
                                         "Singapore" "Singapore"))
       /\ Route.stops first = Some 0
       /\ Route.stops second = Some 0.
Proof.
  assert (In via_dubai demo_results) as Hin by (right; left; reflexivity).
  split; [reflexivity | split; [exact Hin |]].
  exact (itineraries_join_direct_legs sqlite_ilike demo
           "Berlin" "Germany" "Singapore" "Singapore" 1 25
           demo_results 3 via_dubai eq_refl Hin).
Defined.

Lemma total_counts_join_pairs_witness :
  routes_resolve demo = true
  /\ result (berlin_singapore 2 2) = Ok ([via_doha "LH"], 3)
  /\ (exists items,
         result (berlin_singapore 2 2) =
         Ok (items,
             len (join_pairs sqlite_ilike demo
                             "Berlin" "Germany" "Singapore" "Singapore")))
  /\ 3 = len (connections sqlite_ilike demo
                          "Berlin" "Germany" "Singapore" "Singapore")
  /\ exists items', result (berlin_singapore 1 25) = Ok (items', 3).
Proof.
  destruct (total_counts_join_pairs sqlite_ilike demo
              "Berlin" "Germany" "Singapore" "Singapore" 2 2) as [H1 H2].
  destruct (H2 [via_doha "LH"] 3 eq_refl) as (_ & H3 & H4).
  split; [reflexivity | split; [reflexivity | split; [| split]]].
  - exact (H1 eq_refl).
  - exact H3.
  - exact (H4 1 25).
Defined.

Lemma empty_sets_short_circuit_witness :
  (dep_ids_of sqlite_ilike demo "Atlantis" "" = []
   /\ get_connecting_flights sqlite_ilike demo
        "Atlantis" "" "Singapore" "Singapore" 1 25 =
      ([QAirportsLike "%Atlantis%" "%%";
        QAirportsLike "%Singapore%" "%Singapore%"], Ok ([], 0)))
  /\ (first_legs_of sqlite_ilike demo "Singapore" "Singapore" = []
      /\ get_connecting_flights sqlite_ilike demo
           "Singapore" "Singapore" "Berlin" "Germany" 1 25 =
         ([QAirportsLike "%Singapore%" "%Singapore%";
           QAirportsLike "%Berlin%" "%Germany%";
           QRoutesFrom [3]], Ok ([], 0))).
Proof.
  split; (split; [reflexivity |]).
  - exact (empty_sets_short_circuit sqlite_ilike demo
             "Atlantis" "" "Singapore" "Singapore" 1 25 (or_introl eq_refl)).
  - exact (empty_sets_short_circuit sqlite_ilike demo
             "Singapore" "Singapore" "Berlin" "Germany" 1 25
             (or_intror (or_intror eq_refl))).
Defined.

Lemma pages_concatenate_to_results_witness :
  1 <= 2
  /\ materialized sqlite_ilike demo "Berlin" "Germany" "Singapore" "Singapore"
     = Some demo_results
  /\ List.concat (map (fun page => returned_items (berlin_singapore page 2))
                      (page_numbers (ceil_div (len demo_results) 2)))
     = demo_results
  /\ List.concat (map (fun page => page_of [10; 20; 30; 40; 50] page 2)
                      (page_numbers (ceil_div 5 2)))
     = [10; 20; 30; 40; 50].
Proof.
  assert (1 <= 2) as Hs by lia.
  destruct (pages_concatenate_to_results sqlite_ilike demo
              "Berlin" "Germany" "Singapore" "Singapore" 2 Hs) as [H1 H2].
  split; [exact Hs | split; [reflexivity | split]].
  - exact (H2 demo_results eq_refl).
  - exact (H1 Z [10; 20; 30; 40; 50]).
Defined.

Lemma page_is_window_of_results_witness :
  1 <= 2 /\ 1 <= 2
  /\ page_of [10; 20; 30; 40; 50] 2 2 = [30; 40]
  /\ result (berlin_singapore 2 2) = Ok ([via_doha "LH"], 3)
  /\ (exists all,
         materialized sqlite_ilike demo
                      "Berlin" "Germany" "Singapore" "Singapore" = Some all
         /\ [via_doha "LH"] =
            firstn (Z.to_nat 2) (skipn (Z.to_nat ((2 - 1) * 2)) all)
         /\ len [via_doha "LH"] <= 2
         /\ 3 = len all)
  /\ routes_resolve demo = true
  /\ exists items total, result (berlin_singapore 2 2) = Ok (items, total).
Proof.
  assert (1 <= 2) as Hs by lia.
  destruct (page_is_window_of_results sqlite_ilike demo
              "Berlin" "Germany" "Singapore" "Singapore" 2 2 Hs Hs)
    as (H0 & H1 & H2).
  split; [exact Hs | split; [exact Hs |]].
  split; [exact (proj1 (H0 Z [10; 20; 30; 40; 50])) |].
  split; [reflexivity |].
  split; [exact (H1 [via_doha "LH"] 3 eq_refl) |].
  split; [reflexivity | exact (H2 eq_refl)].
Defined.


Lemma display_fields_fall_back_witness :
  result (berlin_singapore 1 25) = Ok (demo_results, 3)
  /\ In via_dubai demo_results
  /\ exists first second from_airport via_airport to_airport,
       In (first, second)
          (join_pairs sqlite_ilike demo
                      "Berlin" "Germany" "Singapore" "Singapore")
       /\ airport_by_id demo (Route.source_id first) = Some from_airport
       /\ airport_by_id demo (Route.dest_id first) = Some via_airport
       /\ airport_by_id demo (Route.dest_id second) = Some to_airport
       /\ via_dubai = make_itinerary first second
                                     from_airport via_airport to_airport
       /\ from1 via_dubai = display_code from_airport
       /\ via via_dubai = display_code via_airport
       /\ to via_dubai = display_code to_airport
       /\ airline1 via_dubai = display_airline first
       /\ airline2 via_dubai = display_airline second.
Proof.
  assert (In via_dubai demo_results) as Hin by (right; left; reflexivity).
  split; [reflexivity | split; [exact Hin |]].
  exact (display_fields_fall_back sqlite_ilike demo
           "Berlin" "Germany" "Singapore" "Singapore" 1 25
           demo_results 3 eq_refl via_dubai Hin).
Defined.

(** C6 as stated fails: in [blank_codes] the origin airport's IATA code is
    the empty string, which is not null, yet the itinerary shows the ICAO
    code; and the first leg's airline code is the empty string, yet the
    itinerary shows ["Unknown"]. *)
Lemma display_fields_as_stated_fails :
  ~ display_fields sqlite_ilike
      display_code_as_stated display_airline_as_stated
      blank_codes "Berlin" "Germany" "Singapore" "Singapore" 1 25.
Proof.
  intros C.
  destruct (C [blank_itinerary] 1 eq_refl blank_itinerary
              (or_introl eq_refl))
    as (first & second & a & b & c & Hp & Ha & _ & _ & _ & Hfrom & _).
  vm_compute in Hp. destruct Hp as [Hp | []].
  injection Hp as <- <-.
  vm_compute in Ha. injection Ha as <-.
  vm_compute in Hfrom. discriminate Hfrom.
Qed.

Lemma no_raise_when_routes_resolve_witness :
  routes_resolve demo = true
  /\ (exists items total,
         result (get_connecting_flights sqlite_ilike demo "" "" "" "" 1 25)
         = Ok (items, total))
  /\ Forall (lookup_ok demo)
            (queries (get_connecting_flights sqlite_ilike demo "" "" "" ""
                                             1 25)).
Proof.
  split; [reflexivity |].
  exact (no_raise_when_routes_resolve sqlite_ilike demo "" "" "" "" 1 25
           eq_refl).
Defined.

Lemma handler_page_count_witness :
  result (berlin_singapore 1 2) = Ok ([via_doha "QR"; via_dubai], 3)
  /\ (exists items title,
         result (connecting_flights sqlite_ilike demo
                   (Some "Berlin") (Some "Germany")
                   (Some "Singapore") (Some "Singapore") 1) =
         Ok (ResultsTable items 3 1 ((3 + 24) / 25) title "connecting"))
  /\ 25 * ((3 + 24) / 25 - 1) < 3 <= 25 * ((3 + 24) / 25).
Proof.
  split; [reflexivity |].
  exact (handler_page_count sqlite_ilike demo
           "Berlin" "Germany" "Singapore" "Singapore" 1 1 2
           [via_doha "QR"; via_dubai] 3 eq_refl).
Defined.

Lemma page_zero_is_empty_witness :
  1 <= 25
  /\ result (berlin_singapore 0 25) = Ok ([], 3)
  /\ ([] = @nil Itinerary
      /\ 3 = len (join_pairs sqlite_ilike demo
                             "Berlin" "Germany" "Singapore" "Singapore"))
  /\ routes_resolve demo = true
  /\ result (berlin_singapore 0 25) =
     Ok ([], len (join_pairs sqlite_ilike demo
                             "Berlin" "Germany" "Singapore" "Singapore")).
Proof.
  assert (1 <= 25) as Hs by lia.
  destruct (page_zero_is_empty sqlite_ilike demo
              "Berlin" "Germany" "Singapore" "Singapore" 25 Hs) as [H1 H2].
  split; [exact Hs | split; [reflexivity | split]].
  - exact (H1 [] 3 eq_refl).
  - split; [reflexivity | exact (H2 eq_refl)].
Defined.

Lemma results_in_nested_loop_order_witness :
  result (berlin_singapore 2 2) = Ok ([via_doha "LH"], 3)
  /\ exists all,
       map Some all =
       map (itinerary_of demo)
           (flat_map
              (fun first =>
                 map (pair first)
                     (filter
                        (fun second =>
                           py_eqb (Route.dest_id first)
                                  (Route.source_id second))
                        (second_legs_of sqlite_ilike demo
                           "Berlin" "Germany" "Singapore" "Singapore")))
              (first_legs_of sqlite_ilike demo "Berlin" "Germany"))
       /\ [via_doha "LH"] = page_of all 2 2
       /\ 3 = len all.
Proof.
  split; [reflexivity |].
  exact (results_in_nested_loop_order sqlite_ilike demo
           "Berlin" "Germany" "Singapore" "Singapore" 2 2
           [via_doha "LH"] 3 eq_refl).
Defined.

(** * Properties of the other read paths *)

(** ** Store-level paging *)

Lemma In_sql_window {A : Type} (rows : list A) (offset limit : Z) (x : A) :
  In x (sql_window rows offset limit) -> In x rows.
Proof.
  unfold sql_window. destruct (limit <? 0); intros H.
  - now apply In_skipn in H.
  - apply In_firstn in H. now apply In_skipn in H.
Qed.

(** From page 1 on, the store's window and the in-memory slice are the
    same. *)
Lemma sql_window_page_of {A : Type} (rows : list A) (page per_page : Z) :
  1 <= page -> 1 <= per_page ->
  sql_window rows ((page - 1) * per_page) per_page =
  page_of rows page per_page.
Proof.
  intros Hp Hs. rewrite page_of_window by assumption. unfold sql_window.
  destruct (per_page <? 0) eqn:E; [apply Z.ltb_lt in E; lia | reflexivity].
Qed.

Lemma concat_sql_pages {A : Type} (rows : list A) (per_page : Z) :
  1 <= per_page ->
  List.concat
    (map (fun page => sql_window rows ((page - 1) * per_page) per_page)
         (page_numbers (ceil_div (len rows) per_page))) = rows.
Proof.
  intros Hs. rewrite <- (concat_pages rows per_page Hs) at 2.
  f_equal. apply map_ext_in. intros page Hin.
  apply sql_window_page_of; [| assumption].
  unfold page_numbers in Hin. apply in_map_iff in Hin.
  destruct Hin as (i & <- & Hi). apply in_seq in Hi. lia.
Qed.


Section CrudProperties.

Variable ilike : option string -> string -> bool.
Variable db : Db.

Lemma airport_pages_cover_matches_aux (city country : string)
  (per_page : Z) :
  1 <= per_page ->
  (forall page,
      snd (get_airport_by_city_country ilike db city country page per_page)
      = len (airports_like ilike db (pattern city) (pattern country)))
  /\ List.concat
       (map (fun page =>
               fst (get_airport_by_city_country ilike db city country
                                                page per_page))
            (page_numbers
               (ceil_div (len (airports_like ilike db (pattern city)
                                             (pattern country)))
                         per_page)))
     = airports_like ilike db (pattern city) (pattern country).
Proof.
  intros Hs. split; [reflexivity |].
  unfold get_airport_by_city_country. cbn [fst].
  now apply concat_sql_pages.
Qed.

Lemma flights_to_from_city_rows (city country : string)
  (page per_page : Z) :
  get_flights_to_from_city ilike db city country page per_page
  = (sql_window (filter (touches (dep_ids_of ilike db city country))
                        (routes db))
                ((page - 1) * per_page) per_page,
     len (filter (touches (dep_ids_of ilike db city country)) (routes db))).
Proof.
  unfold get_flights_to_from_city.
  fold (dep_ids_of ilike db city country).
  destruct (is_empty _) eqn:Ei; [| reflexivity].
  apply is_empty_true in Ei. rewrite Ei.
  rewrite (filter_none (touches [])).
  - unfold sql_window. rewrite skipn_nil, firstn_nil.
    now destruct (per_page <? 0).
  - intros r. unfold touches, in_ids.
    now destruct (Route.source_id r), (Route.dest_id r).
Qed.


(** The storage-paged searches take page 0 for page 1, where the
    in-memory pager of the connecting search returns nothing. *)
Theorem stored_page_zero_is_page_one (city country city2 country2 : string)
  (per_page : Z) :
  1 <= per_page ->
  get_airport_by_city_country ilike db city country 0 per_page
  = get_airport_by_city_country ilike db city country 1 per_page
  /\ get_flights_to_from_city ilike db city country 0 per_page
     = get_flights_to_from_city ilike db city country 1 per_page
  /\ get_direct_flights_between_cities ilike db city country city2 country2
                                       0 per_page
     = get_direct_flights_between_cities ilike db city country city2 country2
                                         1 per_page.
Proof.
  intros Hs.
  assert (forall (A : Type) (rows : list A),
             sql_window rows ((0 - 1) * per_page) per_page
             = sql_window rows ((1 - 1) * per_page) per_page) as W.
  { intros A rows. unfold sql_window.
    replace (Z.to_nat ((0 - 1) * per_page)) with 0%nat by lia.
    reflexivity. }
  unfold get_airport_by_city_country, get_flights_to_from_city,
    get_direct_flights_between_cities.
  repeat split.
  - now rewrite W.
  - destruct (is_empty _); [reflexivity | now rewrite W].
  - destruct (is_empty _ || is_empty _)%bool; [reflexivity | now rewrite W].
Qed.


Lemma between_comm (ids1 ids2 : list Z) (r : Route.t) :
  between ids1 ids2 r = between ids2 ids1 r.
Proof. unfold between. apply orb_comm. Qed.



(** Direct flights between two cities: the search does not depend on which
    city is named first; items and total are the same either way. *)
Theorem direct_flights_symmetric (city1 country1 city2 country2 : string)
  (page per_page : Z) :
  get_direct_flights_between_cities ilike db city1 country1 city2 country2
                                    page per_page
  = get_direct_flights_between_cities ilike db city2 country2 city1 country1
                                      page per_page.
Proof.
  unfold get_direct_flights_between_cities.
  rewrite (orb_comm (is_empty _)).
  destruct (is_empty _ || is_empty _)%bool; [reflexivity |].
  set (ids1 := map Airport.id
                   (airports_like ilike db (pattern city1)
                                  (pattern country1))).
  set (ids2 := map Airport.id
                   (airports_like ilike db (pattern city2)
                                  (pattern country2))).
  assert (filter (fun r => between ids1 ids2 r && direct r)%bool (routes db)
          = filter (fun r => between ids2 ids1 r && direct r)%bool
                   (routes db)) as ->.
  { apply filter_ext. intros r. now rewrite between_comm. }
  reflexivity.
Qed.

(** Every route returned by [get_direct_flights_between_cities], on any
    page, is a route of the table with [stops = 0] that joins an airport
    of one city to an airport of the other. *)
Theorem direct_flights_join_the_cities
  (city1 country1 city2 country2 : string) (page per_page : Z)
  (r : Route.t) :
  In r (fst (get_direct_flights_between_cities ilike db
               city1 country1 city2 country2 page per_page)) ->
  In r (routes db)
  /\ Route.stops r = Some 0
  /\ exists i j,
       In i (dep_ids_of ilike db city1 country1)
       /\ In j (arr_ids_of ilike db city2 country2)
       /\ ((Route.source_id r = Some i /\ Route.dest_id r = Some j)
           \/ (Route.source_id r = Some j /\ Route.dest_id r = Some i)).
Proof.
  unfold get_direct_flights_between_cities.
  fold (dep_ids_of ilike db city1 country1).
  fold (arr_ids_of ilike db city2 country2).
  destruct (is_empty _ || is_empty _)%bool; cbn [fst]; [intros [] |].
  intros H. apply In_sql_window in H. apply filter_In in H.
  destruct H as [Hr H]. apply andb_true_iff in H. destruct H as [B D].
  apply direct_spec in D. split; [assumption | split; [assumption |]].
  unfold between in B. rewrite orb_true_iff, !andb_true_iff in B.
  rewrite !in_ids_spec in B.
  destruct B as [[(i & Ei & Hi) (j & Ej & Hj)] | [(j & Ej & Hj) (i & Ei & Hi)]];
    exists i, j; auto.
Qed.



End CrudProperties.

(** ** DISTINCT and the autocomplete endpoints *)

Lemma opt_string_eqb_spec (x y : option string) :
  opt_string_eqb x y = true <-> x = y.
Proof.
  destruct x as [a |], y as [b |]; simpl; try (split; congruence).
  rewrite String.eqb_eq. split; congruence.
Qed.

Lemma In_distinct (values : list (option string)) (v : option string) :
  In v (distinct values) <-> In v values.
Proof.
  induction values as [| w rest IH]; simpl; [tauto |].
  rewrite filter_In, IH, negb_true_iff.
  destruct (opt_string_eqb w v) eqn:E.
  - apply opt_string_eqb_spec in E. split; intros _; now left.
  - split; [tauto |]. intros [H | H]; [now left | right; auto].
Qed.

Lemma NoDup_distinct (values : list (option string)) :
  NoDup (distinct values).
Proof.
  induction values as [| w rest IH]; simpl; constructor.
  - rewrite filter_In, negb_true_iff. intros [_ H].
    assert (opt_string_eqb w w = true) as E by now apply opt_string_eqb_spec.
    congruence.
  - now apply NoDup_filter.
Qed.

Lemma slice_to_ten {A : Type} (l : list A) : py_slice l 0 10 = firstn 10 l.
Proof.
  unfold py_slice, slice_index. cbn [Z.ltb Z.compare].
  set (n := Z.of_nat (List.length l)).
  replace (Z.min 0 n) with 0 by lia.
  rewrite Z.sub_0_r. cbn [Z.to_nat skipn].
  rewrite <- (firstn_capped 10 l). f_equal. lia.
Qed.

Section AutocompleteProperties.

Variable str_lower : string -> string.

Lemma matching_raises (q : string) (values : list (option string)) :
  matching str_lower q values = Raise AttributeError <-> In None values.
Proof.
  induction values as [| [c |] rest IH]; simpl.
  - split; [discriminate | tauto].
  - destruct (matching str_lower q rest) as [found | []].
    + split; [discriminate |].
      intros [H | H]; [discriminate | apply IH in H; discriminate].
    + split; [intros _; right; now apply IH | reflexivity].
  - split; auto.
Qed.

Lemma matching_found (q : string) (values : list (option string))
  (found : list string) :
  matching str_lower q values = Ok found ->
  (forall c,
      In c found <->
      In (Some c) values
      /\ contains (str_lower q) (str_lower c) = true)
  /\ (NoDup values -> NoDup found).
Proof.
  revert found. induction values as [| [c |] rest IH]; simpl; intros found.
  - intros [= <-]. split; [simpl; tauto | constructor].
  - destruct (matching str_lower q rest) as [found' |]; [| discriminate].
    destruct (IH found' eq_refl) as [IH1 IH2].
    intros [= <-]. split.
    + intros d.
      destruct (contains (str_lower q) (str_lower c)) eqn:K; simpl;
        rewrite IH1.
      * split.
        -- intros [<- | [H1 H2]]; auto.
        -- intros [[[= <-] | H1] H2]; auto.
      * split.
        -- intros [H1 H2]; auto.
        -- intros [[[= <-] | H1] H2]; [congruence | auto].
    + intros N. inversion N as [| ? ? Hc N']; subst.
      destruct (contains (str_lower q) (str_lower c)); [| auto].
      constructor; [| auto]. rewrite IH1. tauto.
  - discriminate.
Qed.

Lemma suggestions_raise (column : Airport.t -> option string) (db : Db)
  (q : string) :
  match matching str_lower q (distinct (map column (airports db))) with
  | Ok found => Ok (py_slice found 0 10)
  | Raise e => Raise e
  end = Raise AttributeError
  <-> exists a, In a (airports db) /\ column a = None.
Proof.
  assert (In None (distinct (map column (airports db)))
          <-> exists a, In a (airports db) /\ column a = None) as E.
  { rewrite In_distinct, in_map_iff.
    split; intros (a & H1 & H2); eauto. }
  rewrite <- E, <- (matching_raises q).
  destruct (matching str_lower q (distinct (map column (airports db))))
    as [found | []]; split; intros H; try discriminate H; reflexivity.
Qed.

Lemma suggestions_found (column : Airport.t -> option string) (db : Db)
  (q : string) (names : list string) :
  match matching str_lower q (distinct (map column (airports db))) with
  | Ok found => Ok (py_slice found 0 10)
  | Raise e => Raise e
  end = Ok names ->
  (List.length names <= 10)%nat
  /\ NoDup names
  /\ (forall c,
         In c names ->
         (exists a, In a (airports db) /\ column a = Some c)
         /\ contains (str_lower q) (str_lower c) = true)
  /\ ((List.length names < 10)%nat ->
      forall a c,
        In a (airports db) -> column a = Some c ->
        contains (str_lower q) (str_lower c) = true ->
        In c names).
Proof.
  destruct (matching str_lower q _) as [found |] eqn:E; [| discriminate].
  intros [= <-]. rewrite slice_to_ten.
  destruct (matching_found _ _ _ E) as [M N].
  specialize (N (NoDup_distinct _)).
  repeat split.
  - apply firstn_le_length.
  - rewrite <- (firstn_skipn 10 found) in N.
    now apply NoDup_app_remove_r in N.
  - apply In_firstn in H. apply M in H. destruct H as [H _].
    apply In_distinct, in_map_iff in H.
    destruct H as (a & Ha & Hin). eauto.
  - apply In_firstn in H. now apply M in H.
  - intros Hshort a c Ha Hc K.
    rewrite firstn_all2.
    + apply M. split; [| assumption].
      apply In_distinct, in_map_iff. eauto.
    + rewrite length_firstn in Hshort. lia.
Qed.

(** [/api/cities] and [/api/countries] raise [AttributeError] exactly when
    some airport has a NULL city (respectively country): the comprehension
    lower-cases every distinct value before the result is cut to ten. *)
Theorem autocomplete_raises_on_null (db : Db) (q : string) :
  (api_cities str_lower db q = Raise AttributeError
   <-> exists a, In a (airports db) /\ Airport.city a = None)
  /\ (api_countries str_lower db q = Raise AttributeError
      <-> exists a, In a (airports db) /\ Airport.country a = None).
Proof.
  split; [apply (suggestions_raise Airport.city)
         | apply (suggestions_raise Airport.country)].
Qed.

(** When [/api/cities] answers, it gives at most ten names, no name twice,
    each the city of some airport and containing the query once both are
    lower-cased. *)
Theorem api_cities_suggests_matching_cities (db : Db) (q : string)
  (names : list string) :
  api_cities str_lower db q = Ok names ->
  (List.length names <= 10)%nat
  /\ NoDup names
  /\ forall c,
       In c names ->
       (exists a, In a (airports db) /\ Airport.city a = Some c)
       /\ contains (str_lower q) (str_lower c) = true.
Proof.
  intros H. destruct (suggestions_found Airport.city db q names H)
    as (H1 & H2 & H3 & _). auto.
Qed.

(** The same for [/api/countries]. *)
Theorem api_countries_suggests_matching_countries (db : Db) (q : string)
  (names : list string) :
  api_countries str_lower db q = Ok names ->
  (List.length names <= 10)%nat
  /\ NoDup names
  /\ forall c,
       In c names ->
       (exists a, In a (airports db) /\ Airport.country a = Some c)
       /\ contains (str_lower q) (str_lower c) = true.
Proof.
  intros H. destruct (suggestions_found Airport.country db q names H)
    as (H1 & H2 & H3 & _). auto.
Qed.

(** An answer of fewer than ten names is complete: every city (country) of
    the table that contains the query is in it. *)
Theorem short_suggestions_are_complete (db : Db) (q : string)
  (names : list string) :
  (List.length names < 10)%nat ->
  (api_cities str_lower db q = Ok names ->
   forall a c,
     In a (airports db) -> Airport.city a = Some c ->
     contains (str_lower q) (str_lower c) = true -> In c names)
  /\ (api_countries str_lower db q = Ok names ->
      forall a c,
        In a (airports db) -> Airport.country a = Some c ->
        contains (str_lower q) (str_lower c) = true -> In c names).
Proof.
  intros Hshort. split; intros H.
  - destruct (suggestions_found Airport.city db q names H)
      as (_ & _ & _ & H4). exact (H4 Hshort).
  - destruct (suggestions_found Airport.country db q names H)
      as (_ & _ & _ & H4). exact (H4 Hshort).
Qed.

End AutocompleteProperties.

(** [get_unique_cities] and [get_unique_countries] list every city
    (country) value of the airports table exactly once, NULL included. *)
Theorem unique_values_once (db : Db) :
  NoDup (get_unique_cities db)
  /\ (forall v, In v (get_unique_cities db) <->
                exists a, In a (airports db) /\ Airport.city a = v)
  /\ NoDup (get_unique_countries db)
  /\ (forall v, In v (get_unique_countries db) <->
                exists a, In a (airports db) /\ Airport.country a = v).
Proof.
  unfold get_unique_cities, get_unique_countries.
  repeat split; try apply NoDup_distinct;
    try (intros H; apply In_distinct, in_map_iff in H;
         destruct H as (a & E & Ha); eauto);
    intros (a & Ha & E); apply In_distinct, in_map_iff; eauto.
Qed.

(** ** The route import *)

Lemma airport_by_code_found (airports : list Airport.t) (code : string)
  (a : Airport.t) :
  airport_by_code airports code = Some a ->
  In a airports
  /\ (Airport.iata a = Some code \/ Airport.icao a = Some code).
Proof.
  unfold airport_by_code. intros H. apply find_some in H.
  destruct H as [Hin H]. split; [assumption |].
  apply orb_true_iff in H. unfold code_is in H.
  destruct H as [H | H]; [left | right].
  - destruct (Airport.iata a); [| discriminate].
    apply String.eqb_eq in H. now subst.
  - destruct (Airport.icao a); [| discriminate].
    apply String.eqb_eq in H. now subst.
Qed.



(** An airport of the table is found by its key. *)
Lemma member_resolves (db : Db) (a : Airport.t) :
  In a (airports db) -> resolves db (Some (Airport.id a)) = true.
Proof.
  intros Ha. unfold resolves, airport_by_id.
  destruct (find _ _) eqn:E; [reflexivity |].
  pose proof (find_none _ _ E a Ha) as N. simpl in N.
  now rewrite Z.eqb_refl in N.
Qed.

Section LoaderProperties.

Variable isdigit : string -> bool.
Variable int : string -> option Z.
Variable airport_table : list Airport.t.
Variable airline_table : list Airline.t.

Local Abbreviation row_route :=
  (route_of_row isdigit int airport_table airline_table).
Local Abbreviation rows_routes :=
  (routes_of_rows isdigit int airport_table airline_table).
Local Abbreviation row_adds :=
  (row_adds isdigit int airport_table airline_table).

Lemma route_of_row_cases (key : Z) (row : list string) :
  match row_route key row with
  | Committed (Some r) =>
      row_resolves airport_table row = true
      /\ Route.id r = key /\ row_adds row r
  | Committed None => row_resolves airport_table row = false
  | ValueError =>
      row_resolves airport_table row = true
      /\ isdigit (field row 7) = true
      /\ int (field row 7) = None
  end.
Proof.
  destruct row as
    [| r0 [| r1 [| r2 [| r3 [| r4 [| r5 [| r6 [| r7 [| r8 rest]]]]]]]]];
    try reflexivity.
  unfold route_of_row, row_resolves, row_adds, field. cbn [nth].
  destruct (airport_by_code airport_table r2) as [source |]; [| reflexivity].
  destruct (airport_by_code airport_table r4) as [dest |]; [| reflexivity].
  destruct (isdigit r7) eqn:D.
  - destruct (int r7) as [stops |] eqn:I.
    + repeat split. exists source, dest, stops. repeat split.
    + repeat split.
  - repeat split. exists source, dest, 0. repeat split.
Qed.

Lemma rows_routes_added (rows : list (list string)) :
  forall key added,
    rows_routes key rows = Committed added ->
    Forall (fun r => exists row, In row rows /\ row_adds row r) added
    /\ List.length added
       = List.length (filter (row_resolves airport_table) rows).
Proof.
  induction rows as [| row rest IH]; intros key added; simpl.
  - intros [= <-]. split; [constructor | reflexivity].
  - pose proof (route_of_row_cases key row) as C.
    destruct (row_route key row) as [[r |] |]; [| | discriminate].
    + destruct C as (R & _ & Hadd). rewrite R.
      destruct (rows_routes (key + 1) rest) as [added' |] eqn:E;
        [| discriminate].
      intros [= <-]. destruct (IH _ _ E) as [F L]. split.
      * constructor; [exists row; auto |].
        eapply Forall_impl; [| exact F].
        intros r' (row' & H1 & H2). exists row'. auto.
      * simpl. now rewrite L.
    + rewrite C. intros E. destruct (IH _ _ E) as [F L]. split.
      * eapply Forall_impl; [| exact F].
        intros r' (row' & H1 & H2). exists row'. auto.
      * assumption.
Qed.

Lemma rows_routes_abort (rows : list (list string)) :
  forall key,
    rows_routes key rows = ValueError <->
    exists row,
      In row rows /\ row_resolves airport_table row = true
      /\ isdigit (field row 7) = true /\ int (field row 7) = None.
Proof.
  induction rows as [| row rest IH]; intros key; simpl.
  - split; [discriminate | intros (row & [] & _)].
  - pose proof (route_of_row_cases key row) as C.
    destruct (row_route key row) as [[r |] |].
    + destruct C as (R & _ & (s & d & n & _ & _ & Hn & _)).
      specialize (IH (key + 1)).
      destruct (rows_routes (key + 1) rest) as [added |].
      * split; [discriminate |].
        intros (row' & [<- | Hin] & H1 & H2 & H3).
        -- rewrite H2, H3 in Hn. discriminate.
        -- assert (@Committed (list Route.t) added = ValueError) as X
             by (apply IH; eauto).
           discriminate.
      * split; [| reflexivity]. intros _.
        destruct (proj1 IH eq_refl) as (row' & H & H'). eauto.
    + rewrite IH. split.
      * intros (row' & H & H'). eauto.
      * intros (row' & [<- | Hin] & H1 & H'); [congruence | eauto].
    + split; [| reflexivity]. intros _. exists row. tauto.
Qed.

Local Abbreviation load :=
  (load_routes isdigit int airport_table airline_table).

Lemma load_committed (table table' : list Route.t)
  (rows : list (list string)) :
  load table rows = Committed table' ->
  exists added,
    table' = table ++ added
    /\ Forall (fun r => exists row, In row rows /\ row_adds row r) added
    /\ List.length added
       = List.length (filter (row_resolves airport_table) rows).
Proof.
  unfold load_routes.
  destruct (rows_routes (next_route_id table) rows) as [added |] eqn:E;
    [| discriminate].
  intros [= <-]. exists added.
  destruct (rows_routes_added _ _ _ E). auto.
Qed.

Lemma added_route_resolves (routes' : list Route.t) (row : list string)
  (r : Route.t) :
  row_adds row r ->
  let db := {| airports := airport_table; routes := routes' |} in
  resolves db (Route.source_id r) = true
  /\ resolves db (Route.dest_id r) = true.
Proof.
  intros (source & dest & stops & Hs & Hd & _ & _ & _ & _ & Es & _ & Ed & _).
  apply airport_by_code_found in Hs, Hd. rewrite Es, Ed.
  split; apply member_resolves; simpl; tauto.
Qed.

Lemma loaded_table_resolves (table table' : list Route.t)
  (rows : list (list string)) :
  load table rows = Committed table' ->
  routes_resolve {| airports := airport_table; routes := table |} = true ->
  routes_resolve {| airports := airport_table; routes := table' |} = true.
Proof.
  intros H R. destruct (load_committed _ _ _ H) as (added & -> & F & _).
  unfold routes_resolve in *. cbn [routes] in *.
  rewrite forallb_app. apply andb_true_iff. split; [exact R |].
  apply forallb_forall. intros r Hr.
  rewrite Forall_forall in F. destruct (F r Hr) as (row & _ & Hadd).
  destruct (added_route_resolves (table ++ added) row r Hadd) as [H1 H2].
  apply andb_true_iff. split; assumption.
Qed.

(** Referential integrity of the import: when [load_routes] commits, every
    route it added points, by [source_id] and by [dest_id], to an airport
    of the airports table; if the routes already in the table resolved, so
    do all routes after the load. *)
Theorem load_routes_keeps_references_resolved (table table' : list Route.t)
  (rows : list (list string)) :
  load table rows = Committed table' ->
  routes_resolve {| airports := airport_table; routes := table |} = true ->
  routes_resolve {| airports := airport_table; routes := table' |} = true.
Proof.
  intros H R. destruct (load_committed _ _ _ H) as (added & -> & F & _).
  unfold routes_resolve in *. cbn [routes] in *.
  rewrite forallb_app, andb_true_iff. split; [exact R |].
  rewrite forallb_forall. intros r Hr.
  rewrite Forall_forall in F. destruct (F r Hr) as (row & _ & Hadd).
  destruct (added_route_resolves (table ++ added) row r Hadd) as [H1 H2].
  now rewrite H1, H2.
Qed.

(** The import and the search together: on the airports table and the
    routes [load_routes] committed, [get_connecting_flights] raises for no
    city pair and no page; it returns a list and a total. *)
Theorem search_returns_on_loaded_routes (table table' : list Route.t)
  (rows : list (list string)) (ilike : option string -> string -> bool)
  (city1 country1 city2 country2 : string) (page per_page : Z) :
  load table rows = Committed table' ->
  routes_resolve {| airports := airport_table; routes := table |} = true ->
  exists items total,
    result (get_connecting_flights ilike
              {| airports := airport_table; routes := table' |}
              city1 country1 city2 country2 page per_page)
    = Ok (items, total).
Proof.
  intros H R. pose proof (loaded_table_resolves _ _ _ H R) as R'.
  destruct (returns_when_resolved ilike _ city1 country1 city2 country2
              page per_page R') as (all & _ & E).
  eauto.
Qed.


(** [load_routes] aborts with [ValueError] exactly when some row that has
    nine fields and resolves both airports carries a stops field that
    [isdigit] accepts and [int] rejects.  A malformed stops field in a row
    that is skipped does no harm. *)
Theorem load_routes_aborts_iff (table : list Route.t)
  (rows : list (list string)) :
  load table rows = ValueError <->
  exists row,
    In row rows /\ row_resolves airport_table row = true
    /\ isdigit (field row 7) = true /\ int (field row 7) = None.
Proof.
  rewrite <- (rows_routes_abort rows (next_route_id table)).
  unfold load_routes.
  destruct (rows_routes (next_route_id table) rows);
    split; intros H; try discriminate H; reflexivity.
Qed.

(** Each route added by [load_routes] records the two airport codes of its
    row as they stand, and its [source_id] and [dest_id] are the keys of
    airports of the table that carry those codes as IATA or ICAO code. *)
Theorem loaded_route_airports_carry_its_codes (table table' : list Route.t)
  (rows : list (list string)) (r : Route.t) :
  load table rows = Committed table' ->
  In r table' ->
  In r table
  \/ exists row source dest,
       In row rows /\ In source airport_table /\ In dest airport_table
       /\ Route.source_code r = Some (field row 2)
       /\ Route.source_id r = Some (Airport.id source)
       /\ (Airport.iata source = Some (field row 2)
           \/ Airport.icao source = Some (field row 2))
       /\ Route.dest_code r = Some (field row 4)
       /\ Route.dest_id r = Some (Airport.id dest)
       /\ (Airport.iata dest = Some (field row 4)
           \/ Airport.icao dest = Some (field row 4)).
Proof.
  intros H Hr. destruct (load_committed _ _ _ H) as (added & -> & F & _).
  apply in_app_or in Hr. destruct Hr as [Hr | Hr]; [now left | right].
  rewrite Forall_forall in F. destruct (F r Hr) as (row & Hrow & Hadd).
  destruct Hadd
    as (source & dest & stops & Hs & Hd & _ & _ & _ & Cs & Es & Cd & Ed & _).
  apply airport_by_code_found in Hs, Hd.
  exists row, source, dest. tauto.
Qed.


End LoaderProperties.

(** ** The handlers' page count *)

Lemma pages_of_25 (total : Z) : (total + 24) / 25 = ceil_div total 25.
Proof. unfold ceil_div. f_equal. lia. Qed.

Lemma nonempty_truthy (s : string) : s <> "" -> truthy (Some s) = true.
Proof.
  intros H. simpl. destruct (String.eqb_spec s ""); [contradiction |].
  reflexivity.
Qed.

Section HandlerProperties.

Variable ilike : option string -> string -> bool.
Variable db : Db.

(** [/city_search] and [/flights_city], given a city and a country that
    are not empty: the pages 1 .. [pages] that the handler announces hold,
    put end to end, every airport of the city (every route touching the
    city) exactly once. *)
Theorem city_handlers_pages_reach_everything (city country : string) :
  city <> "" -> country <> "" ->
  List.concat
    (map (fun page => rendered_items
                        (city_search ilike db (Some city) (Some country)
                                     page))
         (page_numbers
            (rendered_pages
               (city_search ilike db (Some city) (Some country) 1))))
  = airports_like ilike db (pattern city) (pattern country)
  /\ List.concat
       (map (fun page => rendered_items
                           (flights_city ilike db (Some city) (Some country)
                                         page))
            (page_numbers
               (rendered_pages
                  (flights_city ilike db (Some city) (Some country) 1))))
     = filter (touches (dep_ids_of ilike db city country)) (routes db).
Proof.
  intros Hc Hk.
  assert (1 <= 25) as Hs by lia.
  unfold city_search, flights_city.
  rewrite (nonempty_truthy city Hc), (nonempty_truthy country Hk).
  cbn [andb]. split.
  - destruct (airport_pages_cover_matches_aux ilike db city country 25 Hs)
      as [T C].
    unfold get_airport_by_city_country in *. cbn [rendered_pages].
    rewrite pages_of_25. exact C.
  - set (rows := filter _ (routes db)).
    rewrite (map_ext _ (fun page => sql_window rows ((page - 1) * 25) 25)).
    + rewrite flights_to_from_city_rows. cbn [rendered_pages].
      rewrite pages_of_25. now apply concat_sql_pages.
    + intros page. now rewrite flights_to_from_city_rows.
Qed.

(** [/direct_flights]: the announced pages hold every direct route between
    the two cities exactly once; empty strings are searched like any other
    input. *)
Theorem direct_handler_pages_reach_everything
  (city1 country1 city2 country2 : string) :
  List.concat
    (map (fun page => rendered_items
                        (direct_flights ilike db (Some city1) (Some country1)
                                        (Some city2) (Some country2) page))
         (page_numbers
            (rendered_pages
               (direct_flights ilike db (Some city1) (Some country1)
                               (Some city2) (Some country2) 1))))
  = filter (fun r => between (dep_ids_of ilike db city1 country1)
                             (arr_ids_of ilike db city2 country2) r
                     && direct r)%bool
           (routes db).
Proof.
  set (rows := filter _ (routes db)).
  assert (forall page,
             get_direct_flights_between_cities ilike db
               city1 country1 city2 country2 page 25
             = (sql_window rows ((page - 1) * 25) 25, len rows)) as E.
  { intros page. unfold get_direct_flights_between_cities.
    fold (dep_ids_of ilike db city1 country1).
    fold (arr_ids_of ilike db city2 country2). fold rows.
    destruct (is_empty _ || is_empty _)%bool eqn:Ei; [| reflexivity].
    assert (rows = []) as ->.
    { subst rows. apply filter_none. intros r. unfold between.
      apply orb_true_iff in Ei.
      destruct Ei as [Ei | Ei]; apply is_empty_true in Ei; rewrite Ei;
        unfold in_ids;
        destruct (Route.source_id r), (Route.dest_id r); simpl;
        rewrite ?andb_false_r; reflexivity. }
    unfold sql_window. now rewrite skipn_nil, firstn_nil. }
  unfold direct_flights. rewrite !E. cbn [rendered_pages].
  rewrite pages_of_25.
  rewrite <- (concat_sql_pages rows 25 ltac:(lia)) at 2.
  f_equal. apply map_ext. intros page. now rewrite E.
Qed.

(** [/connecting_flights]: when the search completes, the announced pages
    hold every itinerary of the materialized list exactly once, in
    order. *)
Theorem connecting_handler_pages_reach_everything
  (city1 country1 city2 country2 : string) (all : list Itinerary) :
  materialized ilike db city1 country1 city2 country2 = Some all ->
  List.concat
    (map (fun page => response_items
                        (connecting_flights ilike db
                           (Some city1) (Some country1)
                           (Some city2) (Some country2) page))
         (page_numbers
            (response_pages
               (connecting_flights ilike db (Some city1) (Some country1)
                                   (Some city2) (Some country2) 1))))
  = all.
Proof.
  intros E.
  assert (forall page,
             result (connecting_flights ilike db (Some city1) (Some country1)
                                        (Some city2) (Some country2) page)
             = Ok (ResultsTable (page_of all page 25) (len all) page
                     ((len all + 24) / 25)
                     (String.append "Рейсы со стыковкой: "
                        (String.append city1 (String.append " → " city2)))
                     "connecting")) as R.
  { intros page. unfold connecting_flights.
    now rewrite result_bind, result_get_connecting_flights, E. }
  unfold response_pages, response_items. rewrite R, pages_of_25.
  rewrite <- (concat_pages all 25 ltac:(lia)) at 2.
  f_equal. apply map_ext. intros page. now rewrite R.
Qed.

End HandlerProperties.

(** ** What the connecting search asks of the store *)

Lemma traverse_none {A B : Type} (f : A -> option B) (l : list A) :
  traverse f l = None <-> exists x, In x l /\ f x = None.
Proof.
  induction l as [| x l IH]; simpl.
  - split; [discriminate | intros (x & [] & _)].
  - destruct (f x) as [y |] eqn:E.
    + destruct (traverse f l) as [ys |].
      * split; [discriminate |].
        intros (x' & [<- | Hin] & H); [congruence |].
        assert (@Some (list B) ys = None) as X by (apply IH; eauto).
        discriminate.
      * split; [| reflexivity]. intros _.
        destruct (proj1 IH eq_refl) as (x' & Hin & H). eauto.
    + split; [| reflexivity]. intros _. exists x. auto.
Qed.

Lemma for_each_query_count {A : Type} (l : list A)
  (body : A -> list Itinerary -> M (list Itinerary)) :
  (forall x s s',
      In x l -> result (body x s) = Ok s' ->
      len (queries (body x s)) = 3 * (len s' - len s)) ->
  forall s s',
    result (for_each l body s) = Ok s' ->
    len (queries (for_each l body s)) = 3 * (len s' - len s).
Proof.
  induction l as [| x l IH]; intros H s s'; cbn [for_each].
  - intros [= <-]. unfold len, queries, ret. cbn [fst List.length]. lia.
  - rewrite result_bind, queries_bind.
    destruct (result (body x s)) as [s1 |] eqn:E; [| discriminate].
    intros R. unfold len in *. rewrite length_app, Nat2Z.inj_add.
    rewrite (H x s s1 (or_introl eq_refl) E).
    rewrite (IH (fun y t t' Hy => H y t t' (or_intror Hy)) s1 s' R).
    lia.
Qed.

Section StoreTraffic.

Variable ilike : option string -> string -> bool.
Variable db : Db.
Variables city1 country1 city2 country2 : string.

Local Abbreviation search :=
  (get_connecting_flights ilike db city1 country1 city2 country2).
Local Abbreviation pairs :=
  (join_pairs ilike db city1 country1 city2 country2).

Lemma matched_airport_resolves (city country : string) (i : Z) :
  In i (dep_ids_of ilike db city country) ->
  resolves db (Some i) = true.
Proof.
  unfold dep_ids_of, airports_like. intros H. apply in_map_iff in H.
  destruct H as (a & <- & Ha). apply filter_In in Ha.
  apply member_resolves. tauto.
Qed.

(** Of the three lookups made for a joined pair, only the one for the
    connecting airport can fail: [get_connecting_flights] raises exactly
    when some first leg that joins a second leg arrives at an airport key
    that is not in the airports table. *)
Theorem search_raises_iff_dangling_via (page per_page : Z) :
  (exists e, result (search page per_page) = Raise e)
  <-> exists first second,
        In (first, second) pairs
        /\ resolves db (Route.dest_id first) = false.
Proof.
  rewrite result_get_connecting_flights. unfold materialized.
  split.
  - intros (e & H).
    destruct (traverse (itinerary_of db) pairs) eqn:T; [discriminate |].
    apply traverse_none in T. destruct T as ([first second] & Hp & N).
    exists first, second. split; [assumption |].
    apply join_pair_spec in Hp. destruct Hp as (H1 & H2 & _).
    apply first_leg_spec in H1. apply second_leg_spec in H2.
    destruct H1 as (_ & (i & Ei & Hi) & _).
    destruct H2 as (_ & _ & (j & Ej & Hj) & _).
    pose proof (matched_airport_resolves _ _ _ Hi) as Ri.
    pose proof (matched_airport_resolves _ _ _ Hj) as Rj.
    unfold resolves in *. unfold itinerary_of in N.
    rewrite Ei, Ej in N.
    destruct (airport_by_id db (Some i)); [| discriminate].
    destruct (airport_by_id db (Some j)); [| discriminate].
    destruct (airport_by_id db (Route.dest_id first));
      [discriminate | reflexivity].
  - intros (first & second & Hp & N).
    assert (traverse (itinerary_of db) pairs = None) as ->.
    { apply traverse_none. exists (first, second). split; [assumption |].
      unfold resolves in N. unfold itinerary_of.
      destruct (airport_by_id db (Route.dest_id first)); [discriminate |].
      now destruct (airport_by_id db (Route.source_id first)). }
    eauto.
Qed.

Lemma join_step_query_count (first second : Route.t)
  (acc acc' : list Itinerary) :
  result (join_step db first second acc) = Ok acc' ->
  len (queries (join_step db first second acc)) = 3 * (len acc' - len acc).
Proof.
  unfold join_step, query_airport_by_id, issue.
  destruct (py_eqb _ _).
  - destruct (airport_by_id db (Route.source_id first));
      destruct (airport_by_id db (Route.dest_id first));
      destruct (airport_by_id db (Route.dest_id second));
      try discriminate.
    intros [= <-]. unfold len. rewrite length_app.
    cbn [queries fst bind deref ret app List.length]. lia.
  - intros [= <-]. unfold len. cbn [queries ret fst List.length]. lia.
Qed.

(** The cost of a search in round trips: a search that returns
    [total >= 1] itineraries has issued exactly [4 + 3 * total] queries,
    three airport lookups for each itinerary of the full list, whatever
    the page asked for; one that returns [total = 0] has issued at most
    4. *)
Theorem search_query_count (page per_page : Z) (items : list Itinerary)
  (total : Z) :
  result (search page per_page) = Ok (items, total) ->
  (0 < total -> len (queries (search page per_page)) = 4 + 3 * total)
  /\ (total = 0 -> len (queries (search page per_page)) <= 4).
Proof.
  unfold get_connecting_flights, query_airports_like, query_routes_from,
    query_routes_from_to.
  rewrite !result_bind_issue, !queries_bind_issue.
  destruct (is_empty _ || is_empty _)%bool.
  { intros [= <- <-]. unfold len. cbn [queries ret fst List.length]. lia. }
  rewrite result_bind_issue, queries_bind_issue.
  destruct (is_empty _).
  { intros [= <- <-]. unfold len. cbn [queries ret fst List.length]. lia. }
  rewrite result_bind_issue, queries_bind_issue, result_bind, queries_bind.
  match goal with
  | |- context [result (for_each ?l ?body ?s)] =>
      pose proof (for_each_query_count l body) as C;
      destruct (result (for_each l body s)) as [results |] eqn:R;
      [| discriminate]
  end.
  intros [= <- <-].
  pose proof (C (fun first s s' _ =>
                   for_each_query_count _ _
                     (fun second t t' _ =>
                        join_step_query_count first second t t') s s')
                [] results R) as Cnt.
  unfold len, queries in *. cbn [List.length ret fst] in *.
  rewrite length_app. cbn [List.length]. lia.
Qed.

End StoreTraffic.

(** ** The other read paths and the import on the small inputs *)

Example load_demo_rows :
  load_routes ascii_isdigit ascii_int (airports demo) demo_airlines []
              demo_rows
  = Committed demo_loaded.
Proof. reflexivity. Qed.

Example suggest_cities :
  api_cities ascii_lower demo "B" = Ok ["Berlin"; "Dubai"].
Proof. reflexivity. Qed.


Lemma stored_page_zero_is_page_one_witness :
  1 <= 2
  /\ get_airport_by_city_country sqlite_ilike demo "" "" 0 2
     = get_airport_by_city_country sqlite_ilike demo "" "" 1 2
  /\ fst (get_airport_by_city_country sqlite_ilike demo "" "" 0 2) <> [].
Proof.
  assert (1 <= 2) as Hs by lia. split; [exact Hs | split].
  - exact (proj1 (stored_page_zero_is_page_one sqlite_ilike demo
                    "" "" "" "" 2 Hs)).
  - discriminate.
Defined.


Lemma direct_flights_join_the_cities_witness :
  In (route 6 (Some "SQ") 1 3 0)
     (fst (get_direct_flights_between_cities sqlite_ilike demo
             "singapore" "" "berlin" "" 1 25))
  /\ Route.stops (route 6 (Some "SQ") 1 3 0) = Some 0.
Proof.
  assert (In (route 6 (Some "SQ") 1 3 0)
             (fst (get_direct_flights_between_cities sqlite_ilike demo
                     "singapore" "" "berlin" "" 1 25))) as Hin
    by (left; reflexivity).
  split; [exact Hin |].
  exact (proj1 (proj2 (direct_flights_join_the_cities sqlite_ilike demo
                         "singapore" "" "berlin" "" 1 25 _ Hin))).
Defined.


Lemma autocomplete_raises_on_null_witness :
  (exists a, In a (airports unnamed_city) /\ Airport.city a = None)
  /\ api_cities ascii_lower unnamed_city "B" = Raise AttributeError.
Proof.
  assert (exists a, In a (airports unnamed_city) /\ Airport.city a = None)
    as H by (eexists; split; [right; left; reflexivity | reflexivity]).
  split; [exact H |].
  exact (proj2 (proj1 (autocomplete_raises_on_null ascii_lower
                         unnamed_city "B")) H).
Defined.

Lemma api_cities_suggests_matching_cities_witness :
  api_cities ascii_lower demo "B" = Ok ["Berlin"; "Dubai"]
  /\ (List.length ["Berlin"; "Dubai"] <= 10)%nat
  /\ NoDup ["Berlin"; "Dubai"]
  /\ forall c,
       In c ["Berlin"; "Dubai"] ->
       (exists a, In a (airports demo) /\ Airport.city a = Some c)
       /\ contains (ascii_lower "B") (ascii_lower c) = true.
Proof.
  split; [reflexivity |].
  exact (api_cities_suggests_matching_cities ascii_lower demo "B"
           ["Berlin"; "Dubai"] eq_refl).
Defined.

Lemma api_countries_suggests_matching_countries_witness :
  api_countries ascii_lower demo "uni" = Ok ["United Arab Emirates"]
  /\ (List.length ["United Arab Emirates"] <= 10)%nat
  /\ NoDup ["United Arab Emirates"]
  /\ forall c,
       In c ["United Arab Emirates"] ->
       (exists a, In a (airports demo) /\ Airport.country a = Some c)
       /\ contains (ascii_lower "uni") (ascii_lower c) = true.
Proof.
  split; [reflexivity |].
  exact (api_countries_suggests_matching_countries ascii_lower demo "uni"
           ["United Arab Emirates"] eq_refl).
Defined.

Lemma short_suggestions_are_complete_witness :
  (List.length ["Berlin"; "Dubai"] < 10)%nat
  /\ api_cities ascii_lower demo "B" = Ok ["Berlin"; "Dubai"]
  /\ forall a c,
       In a (airports demo) -> Airport.city a = Some c ->
       contains (ascii_lower "B") (ascii_lower c) = true ->
       In c ["Berlin"; "Dubai"].
Proof.
  assert (List.length ["Berlin"; "Dubai"] < 10)%nat as Hshort
    by (simpl; lia).
  split; [exact Hshort | split; [reflexivity |]].
  exact (proj1 (short_suggestions_are_complete ascii_lower demo "B"
                  ["Berlin"; "Dubai"] Hshort) eq_refl).
Defined.

Lemma load_routes_keeps_references_resolved_witness :
  load_routes ascii_isdigit ascii_int (airports demo) demo_airlines []
              demo_rows = Committed demo_loaded
  /\ routes_resolve {| airports := airports demo; routes := [] |} = true
  /\ routes_resolve {| airports := airports demo; routes := demo_loaded |}
     = true.
Proof.
  split; [reflexivity | split; [reflexivity |]].
  exact (load_routes_keeps_references_resolved ascii_isdigit ascii_int
           (airports demo) demo_airlines [] demo_loaded demo_rows
           eq_refl eq_refl).
Defined.

Lemma search_returns_on_loaded_routes_witness :
  load_routes ascii_isdigit ascii_int (airports demo) demo_airlines []
              demo_rows = Committed demo_loaded
  /\ routes_resolve {| airports := airports demo; routes := [] |} = true
  /\ exists items total,
       result (get_connecting_flights sqlite_ilike
                 {| airports := airports demo; routes := demo_loaded |}
                 "Berlin" "" "" "" 1 25)
       = Ok (items, total).
Proof.
  split; [reflexivity | split; [reflexivity |]].
  exact (search_returns_on_loaded_routes ascii_isdigit ascii_int
           (airports demo) demo_airlines [] demo_loaded demo_rows
           sqlite_ilike "Berlin" "" "" "" 1 25 eq_refl eq_refl).
Defined.


Lemma load_routes_aborts_iff_witness :
  (exists row,
      In row odd_digit_rows
      /\ row_resolves (airports demo) row = true
      /\ lenient_isdigit (field row 7) = true
      /\ ascii_int (field row 7) = None)
  /\ load_routes lenient_isdigit ascii_int (airports demo) demo_airlines []
                 odd_digit_rows
     = ValueError.
Proof.
  assert (exists row,
             In row odd_digit_rows
             /\ row_resolves (airports demo) row = true
             /\ lenient_isdigit (field row 7) = true
             /\ ascii_int (field row 7) = None) as H.
  { eexists. split; [left; reflexivity |]. repeat split. }
  split; [exact H |].
  exact (proj2 (load_routes_aborts_iff lenient_isdigit ascii_int
                  (airports demo) demo_airlines [] odd_digit_rows) H).
Defined.

Lemma loaded_route_airports_carry_its_codes_witness :
  load_routes ascii_isdigit ascii_int (airports demo) demo_airlines []
              demo_rows = Committed demo_loaded
  /\ forall r,
       In r demo_loaded ->
       In r []
       \/ exists row source dest,
            In row demo_rows
            /\ In source (airports demo) /\ In dest (airports demo)
            /\ Route.source_code r = Some (field row 2)
            /\ Route.source_id r = Some (Airport.id source)
            /\ (Airport.iata source = Some (field row 2)
                \/ Airport.icao source = Some (field row 2))
            /\ Route.dest_code r = Some (field row 4)
            /\ Route.dest_id r = Some (Airport.id dest)
            /\ (Airport.iata dest = Some (field row 4)
                \/ Airport.icao dest = Some (field row 4)).
Proof.
  split; [reflexivity |]. intros r.
  exact (loaded_route_airports_carry_its_codes ascii_isdigit ascii_int
           (airports demo) demo_airlines [] demo_loaded demo_rows r eq_refl).
Defined.


Lemma city_handlers_pages_reach_everything_witness :
  "i" <> "" /\ "a" <> ""
  /\ List.concat
       (map (fun page => rendered_items
                           (city_search sqlite_ilike demo (Some "i")
                                        (Some "a") page))
            (page_numbers
               (rendered_pages
                  (city_search sqlite_ilike demo (Some "i") (Some "a") 1))))
     = airports_like sqlite_ilike demo (pattern "i") (pattern "a").
Proof.
  assert ("i" <> "") as Hc by discriminate.
  assert ("a" <> "") as Hk by discriminate.
  split; [exact Hc | split; [exact Hk |]].
  exact (proj1 (city_handlers_pages_reach_everything sqlite_ilike demo
                  "i" "a" Hc Hk)).
Defined.

Lemma connecting_handler_pages_reach_everything_witness :
  materialized sqlite_ilike demo "Berlin" "Germany" "Singapore" "Singapore"
  = Some demo_results
  /\ List.concat
       (map (fun page => response_items
                           (connecting_flights sqlite_ilike demo
                              (Some "Berlin") (Some "Germany")
                              (Some "Singapore") (Some "Singapore") page))
            (page_numbers
               (response_pages
                  (connecting_flights sqlite_ilike demo
                     (Some "Berlin") (Some "Germany")
                     (Some "Singapore") (Some "Singapore") 1))))
     = demo_results.
Proof.
  split; [reflexivity |].
  exact (connecting_handler_pages_reach_everything sqlite_ilike demo
           "Berlin" "Germany" "Singapore" "Singapore" demo_results eq_refl).
Defined.

Lemma search_raises_iff_dangling_via_witness :
  (exists first second,
      In (first, second)
         (join_pairs sqlite_ilike dangling
                     "Berlin" "Germany" "Singapore" "Singapore")
      /\ resolves dangling (Route.dest_id first) = false)
  /\ exists e,
       result (get_connecting_flights sqlite_ilike dangling
                 "Berlin" "Germany" "Singapore" "Singapore" 1 25)
       = Raise e.
Proof.
  assert (exists first second,
             In (first, second)
                (join_pairs sqlite_ilike dangling
                            "Berlin" "Germany" "Singapore" "Singapore")
             /\ resolves dangling (Route.dest_id first) = false) as H.
  { do 2 eexists. split; [left; reflexivity | reflexivity]. }
  split; [exact H |].
  exact (proj2 (search_raises_iff_dangling_via sqlite_ilike dangling
                  "Berlin" "Germany" "Singapore" "Singapore" 1 25) H).
Defined.

Lemma search_query_count_witness :
  result (berlin_singapore 2 2) = Ok ([via_doha "LH"], 3)
  /\ 0 < 3
  /\ len (queries (berlin_singapore 2 2)) = 4 + 3 * 3.
Proof.
  assert (0 < 3) as Hpos by lia.
  split; [reflexivity | split; [exact Hpos |]].
  exact (proj1 (search_query_count sqlite_ilike demo
                  "Berlin" "Germany" "Singapore" "Singapore" 2 2
                  [via_doha "LH"] 3 eq_refl) Hpos).
Defined.
